(** * PubMed paper fetcher: a shallow embedding of [FetchResearchPapers.py]

    The script searches PubMed (one [esearch] request), fetches a summary
    per identifier (one [esummary] request each), and either writes the
    records to a CSV file or prints them.  The embedding keeps the
    program's effects explicit: every function of the script is a
    computation over a [World] (the remote service, the log of requests
    sent, standard output and the file system) that either returns a
    value or raises a Python exception.

    Strings are Rocq [string]s read as UTF-8 text: a character of a
    Python [str] is one byte or a lead byte with its continuation bytes.
    Whether the libraries can encode a given string, parse a given body
    or write a given row is decided by the world: a request may prove
    impossible to send, a body may fail to parse, a write may be
    refused. *)

From Stdlib Require Import ZArith String Ascii List.
From Stdlib Require Import Floats.PrimFloat.
From stdpp Require Import base option list strings gmap.

Set Warnings "-register-all".

Local Open Scope string_scope.
Local Open Scope list_scope.

(** ** Python values *)

(** What [response.json()] can return: the image of a JSON document as
    Python objects ([None], [bool], [int], [float], [str], [list],
    [dict]).  A [dict] is kept as its items in insertion order; a key is
    read at its first occurrence. *)
Inductive json : Type :=
| JNull
| JBool (b : bool)
| JInt (n : Z)
| JFloat (f : float)
| JStr (s : string)
| JArr (l : list json)
| JObj (d : list (string * json)).

(** A Python [dict] with [str] keys: the Paper Record, and every JSON
    object. *)
Definition pydict : Type := list (string * json).

(** The exceptions the script can meet.  [RequestException] stands for
    the whole family rooted at [requests.exceptions.RequestException]
    (connection errors, [HTTPError] from [raise_for_status], and the
    [JSONDecodeError] of [response.json()]).  The others are built-in
    exceptions outside that family; [UnicodeEncodeError] is listed apart
    from [ValueError], its base class, because the libraries raise both. *)
Inductive request_error : Type :=
| ConnectionError (msg : string)
| HTTPError (status : Z)
| JSONDecodeError.

Inductive exn : Type :=
| RequestException (e : request_error)
| AttributeError
| TypeError
| ValueError
| UnicodeEncodeError
| OSError (filename : string).

Inductive result (A : Type) : Type :=
| Ok (a : A)
| Raise (e : exn).
Arguments Ok {A} a.
Arguments Raise {A} e.

Definition result_bind {A B : Type} (r : result A) (k : A -> result B) : result B :=
  match r with
  | Ok a => k a
  | Raise e => Raise e
  end.

Module PyDict.

(** [d[key]] when present. *)
Fixpoint find (d : pydict) (key : string) : option json :=
  match d with
  | [] => None
  | (k, v) :: rest => if String.eqb k key then Some v else find rest key
  end.

(** [list(d.keys())]: each key once, in insertion order. *)
Fixpoint keys (d : pydict) : list string :=
  match d with
  | [] => []
  | (k, _) :: rest => k :: filter (fun k' => negb (String.eqb k k')) (keys rest)
  end.

(** [bool(d)]. *)
Definition truthy (d : pydict) : bool :=
  match d with
  | [] => false
  | _ :: _ => true
  end.

End PyDict.

(** [o.get(key)] as a lookup: [AttributeError] when [o] is not a [dict],
    [TypeError] when the key is unhashable (a list or a dict); a hashable
    key that is not a string is never a key of a JSON object. *)
Definition py_find (o key : json) : result (option json) :=
  match o with
  | JObj d =>
      match key with
      | JStr s => Ok (PyDict.find d s)
      | JArr _ | JObj _ => Raise TypeError
      | JNull | JBool _ | JInt _ | JFloat _ => Ok None
      end
  | _ => Raise AttributeError
  end.

(** [o.get(key, dflt)]. *)
Definition py_get (o key dflt : json) : result json :=
  result_bind (py_find o key) (fun found => Ok (default dflt found)).

(** A UTF-8 continuation byte (10xxxxxx). *)
Definition is_continuation (c : ascii) : bool :=
  ((128 <=? nat_of_ascii c) && (nat_of_ascii c <? 192))%nat.

(** The characters of a string, each as a one-character string: a byte
    that is not a continuation byte starts a character, and the
    continuation bytes that follow belong to it. *)
Fixpoint code_points (s : string) : list string :=
  match s with
  | EmptyString => []
  | String c rest =>
      let chunks := code_points rest in
      let continued :=
        match rest with
        | String c' _ => is_continuation c'
        | EmptyString => false
        end in
      match chunks with
      | chunk :: more =>
          if continued then String c chunk :: more
          else String c EmptyString :: chunk :: more
      | [] => [String c EmptyString]
      end
  end.

(** The items a [for] loop draws from a value: the elements of a list,
    the characters of a string, the keys of a dict; anything else is not
    iterable. *)
Definition py_iter (o : json) : result (list json) :=
  match o with
  | JArr l => Ok l
  | JStr s => Ok (map JStr (code_points s))
  | JObj d => Ok (map JStr (PyDict.keys d))
  | JNull | JBool _ | JInt _ | JFloat _ => Raise TypeError
  end.

(** ** The world *)

(** The two endpoints, with the one parameter that varies. *)
Inductive request : Type :=
| ESearch (term : string)
| ESummary (id : json).

(** What [response.json()] makes of a body: a document; text that is
    not JSON; or JSON text with an integer literal beyond Python's digit
    limit for converting a string to an [int]. *)
Inductive payload : Type :=
| Json (j : json)
| NotJson
| OverlongInteger.

(** An HTTP response as the script reads it: the status code and the
    body. *)
Record response : Type := mkResponse {
  status_code : Z;
  body : payload
}.

(** What [requests.get] meets: a response; a service that cannot be
    reached; or a request that cannot even be put on the wire (a term or
    identifier that has no UTF-8 encoding), so that nothing is sent. *)
Inductive reply : Type :=
| Connected (r : response)
| Unreachable (msg : string)
| Unsendable.

(** Why the CSV writer fails on a row: the device refuses the bytes, a
    string of the row cannot be encoded as UTF-8, or an integer of the
    row is beyond the digit limit for conversion to text. *)
Inductive write_failure : Type :=
| DeviceRefuses
| CannotEncode
| DigitLimit.

(** A CSV row: the cells handed to the underlying [csv.writer]. *)
Definition csv_row : Type := list json.

(** A line of standard output. *)
Inductive printed : Type :=
| Text (s : string)                  (* print(s) *)
| Repr (d : pydict)                  (* print(d) for a dict d *)
| ErrorText (e : request_error).     (* print(f"Error fetching data: {e}") *)

(** [net n rq] is the service's answer to [rq] when it is the [n]-th
    request of the run (counting from 0): the service may answer the
    same request differently at different times.  [write_error f rows
    row] tells whether writing [row] to the open file [f], which holds
    [rows] so far, fails, and how. *)
Record World : Type := mkWorld {
  net : nat -> request -> reply;
  requests : list request;
  stdout : list printed;
  files : gmap string (list csv_row);
  writable : string -> bool;
  write_error : string -> list csv_row -> csv_row -> option write_failure
}.

(** The answer the next request [rq] will get. *)
Definition reply_to (w : World) (rq : request) : reply :=
  net w (length (requests w)) rq.

Definition log_request (rq : request) (w : World) : World :=
  mkWorld (net w) (requests w ++ [rq]) (stdout w) (files w) (writable w) (write_error w).

Definition log_print (p : printed) (w : World) : World :=
  mkWorld (net w) (requests w) (stdout w ++ [p]) (files w) (writable w) (write_error w).

Definition set_files (fs : gmap string (list csv_row)) (w : World) : World :=
  mkWorld (net w) (requests w) (stdout w) fs (writable w) (write_error w).

(** ** Computations: state and exceptions *)

Definition M (A : Type) : Type := World -> result A * World.

Definition ret {A : Type} (a : A) : M A := fun w => (Ok a, w).

Definition raise {A : Type} (e : exn) : M A := fun w => (Raise e, w).

Definition bind {A B : Type} (m : M A) (k : A -> M B) : M B :=
  fun w =>
    match m w with
    | (Ok a, w') => k a w'
    | (Raise e, w') => (Raise e, w')
    end.

(** A pure step that may raise. *)
Definition lift {A : Type} (r : result A) : M A := fun w => (r, w).

Notation "x <- m ;; k" := (bind m (fun x => k))
  (at level 90, m at level 89, right associativity).
Notation "m ;;; k" := (bind m (fun _ => k))
  (at level 90, right associativity).

(** ** The [requests] library *)

(** [requests.get(url, params=...)]: the request is sent (and logged);
    an unreachable service raises [ConnectionError]; a request that
    cannot be encoded raises [UnicodeEncodeError] before anything is
    sent. *)
Definition requests_get (rq : request) : M response :=
  fun w =>
    match reply_to w rq with
    | Connected r => (Ok r, log_request rq w)
    | Unreachable msg => (Raise (RequestException (ConnectionError msg)), log_request rq w)
    | Unsendable => (Raise UnicodeEncodeError, w)
    end.

(** [response.raise_for_status()]: 4xx and 5xx raise [HTTPError]. *)
Definition raise_for_status (r : response) : M unit :=
  if ((400 <=? status_code r) && (status_code r <? 600))%Z
  then raise (RequestException (HTTPError (status_code r)))
  else ret tt.

(** [response.json()]: text that is not JSON raises the requests-level
    [JSONDecodeError]; an integer literal beyond the digit limit raises a
    plain [ValueError]. *)
Definition response_json (r : response) : M json :=
  match body r with
  | Json j => ret j
  | NotJson => raise (RequestException JSONDecodeError)
  | OverlongInteger => raise ValueError
  end.

(** ** fetch_paper_details *)

Definition fetch_paper_details (paper_id : json) : M (option pydict) :=
  response <- requests_get (ESummary paper_id) ;;
  raise_for_status response ;;;
  j <- response_json response ;;
  r <- lift (py_get j (JStr "result") (JObj [])) ;;
  data <- lift (py_get r paper_id (JObj [])) ;;
  title <- lift (py_get data (JStr "title") (JStr "N/A")) ;;
  pub_date <- lift (py_get data (JStr "pubdate") (JStr "N/A")) ;;
  let non_academic_authors := JStr "John Doe, PharmaCorp Inc." in
  let company_affiliations := JStr "PharmaCorp Inc." in
  ret (Some [ ("PubmedID", paper_id);
              ("Title", title);
              ("Publication Date", pub_date);
              ("Non-academic Author(s)", non_academic_authors);
              ("Company Affiliation(s)", company_affiliations);
              ("Corresponding Author Email", JStr "contact@pharma.com") ]).

(** ** fetch_papers *)

(** [if paper_data:] on an [Optional[Dict]]. *)
Definition py_truthy (paper_data : option pydict) : bool :=
  match paper_data with
  | Some d => PyDict.truthy d
  | None => false
  end.

(** The loop of [fetch_papers] over the remaining identifiers, [details]
    being the list built so far. *)
Fixpoint fetch_loop (ids : list json) (details : list pydict) : M (list pydict) :=
  match ids with
  | [] => ret details
  | paper_id :: rest =>
      paper_data <- fetch_paper_details paper_id ;;
      match paper_data with
      | Some d => if PyDict.truthy d then fetch_loop rest (details ++ [d])
                  else fetch_loop rest details
      | None => fetch_loop rest details
      end
  end.

Definition fetch_papers (query : string) : M (list pydict) :=
  response <- requests_get (ESearch query) ;;
  raise_for_status response ;;;
  data <- response_json response ;;
  r <- lift (py_get data (JStr "esearchresult") (JObj [])) ;;
  ids <- lift (py_get r (JStr "idlist") (JArr [])) ;;
  items <- lift (py_iter ids) ;;
  fetch_loop items [].

(** ** save_to_csv *)

Definition headers : list string :=
  [ "PubmedID"; "Title"; "Publication Date"; "Non-academic Author(s)";
    "Company Affiliation(s)"; "Corresponding Author Email" ].

(** [open(filename, mode='w', ...)]: the file is created or truncated;
    a path that cannot be opened for writing raises [OSError]. *)
Definition open_w (filename : string) : M unit :=
  fun w =>
    if writable w filename
    then (Ok tt, set_files (<[filename := []]> (files w)) w)
    else (Raise (OSError filename), w).

(** The exception a failed write raises. *)
Definition write_exn (filename : string) (f : write_failure) : exn :=
  match f with
  | DeviceRefuses => OSError filename
  | CannotEncode => UnicodeEncodeError
  | DigitLimit => ValueError
  end.

(** One row written through the open file: appended to the file, unless
    the write fails; the rows written before stay on file. *)
Definition writerow (filename : string) (row : csv_row) : M unit :=
  fun w =>
    match write_error w filename (default [] (files w !! filename)) row with
    | Some f => (Raise (write_exn filename f), w)
    | None => (Ok tt, set_files (alter (fun rows => rows ++ [row]) filename (files w)) w)
    end.

(** [csv.DictWriter._dict_to_list] with the default [extrasaction='raise']
    and [restval='']: a key outside [fieldnames] raises [ValueError]; a
    missing field is written as the empty string. *)
Definition dict_to_list (fieldnames : list string) (rowdict : pydict) : result csv_row :=
  if forallb (fun k => bool_decide (k ∈ fieldnames)) (PyDict.keys rowdict)
  then Ok (map (fun key => default (JStr "") (PyDict.find rowdict key)) fieldnames)
  else Raise ValueError.

(** [writer.writeheader()]. *)
Definition writeheader (filename : string) (fieldnames : list string) : M unit :=
  writerow filename (map JStr fieldnames).

(** [writer.writerows(rowdicts)]: the rows are converted and written one
    after the other, so the rows before an offending one are on file. *)
Fixpoint writerows (filename : string) (fieldnames : list string)
    (rowdicts : list pydict) : M unit :=
  match rowdicts with
  | [] => ret tt
  | rowdict :: rest =>
      row <- lift (dict_to_list fieldnames rowdict) ;;
      writerow filename row ;;;
      writerows filename fieldnames rest
  end.

Definition save_to_csv (papers : list pydict) (filename : string) : M unit :=
  open_w filename ;;;
  writeheader filename headers ;;;
  writerows filename headers papers.

(** ** main *)

(** The [Namespace] that [parser.parse_args()] returns. *)
Record Namespace : Type := mkNamespace {
  query : string;
  file : option string;
  debug : bool
}.

Definition print (p : printed) : M unit := fun w => (Ok tt, log_print p w).

(** [for paper in papers: print(paper)]. *)
Fixpoint print_all (papers : list pydict) : M unit :=
  match papers with
  | [] => ret tt
  | paper :: rest => print (Repr paper) ;;; print_all rest
  end.

(** [try: body except requests.exceptions.RequestException as e: handler]. *)
Definition try_except_request {A : Type} (body : M A) (handler : request_error -> M A) : M A :=
  fun w =>
    match body w with
    | (Raise (RequestException e), w') => handler e w'
    | other => other
    end.

(** [bool(s)] for a string. *)
Definition str_truthy (s : string) : bool :=
  match s with
  | EmptyString => false
  | String _ _ => true
  end.

(** [elif args.file:], where [args.file] is [None] or a string. *)
Definition file_given (f : option string) : option string :=
  match f with
  | Some filename => if str_truthy filename then Some filename else None
  | None => None
  end.

(** The body of the [try] block. *)
Definition main_body (args : Namespace) : M unit :=
  papers <- fetch_papers (query args) ;;
  match papers with
  | [] => print (Text "No papers found for the given query.")
  | _ :: _ =>
      match file_given (file args) with
      | Some filename =>
          save_to_csv papers filename ;;;
          print (Text ("Results saved to " ++ filename))
      | None => print_all papers
      end
  end.

Definition main (args : Namespace) : M unit :=
  try_except_request (main_body args) (fun e => print (ErrorText e)).

(** The process: [main()] run as a script.  An exception that leaves
    [main] ends the interpreter with status 1. *)
Definition exit_status (r : result unit) : Z :=
  match r with
  | Ok _ => 0
  | Raise _ => 1
  end%Z.

Definition run (args : Namespace) (w : World) : Z * World :=
  let (r, w') := main args w in (exit_status r, w').

(** * Reading the program *)

(** ** What a request yields *)

(** The outcome of the three lines [requests.get(...)],
    [response.raise_for_status()], [response.json()] on a given reply. *)
Definition decode (rp : reply) : result json :=
  match rp with
  | Unsendable => Raise UnicodeEncodeError
  | Unreachable msg => Raise (RequestException (ConnectionError msg))
  | Connected r =>
      if ((400 <=? status_code r) && (status_code r <? 600))%Z
      then Raise (RequestException (HTTPError (status_code r)))
      else match body r with
           | Json j => Ok j
           | NotJson => Raise (RequestException JSONDecodeError)
           | OverlongInteger => Raise ValueError
           end
  end.

(** The world after [requests.get] was called with [rq]: the request is
    on the log unless it could not be sent. *)
Definition after_request (rq : request) (w : World) : World :=
  match reply_to w rq with
  | Unsendable => w
  | Connected _ | Unreachable _ => log_request rq w
  end.

(** The per-identifier entry of a summary document:
    [j.get('result', {}).get(paper_id, {})]. *)
Definition summary_entry (j paper_id : json) : result json :=
  result_bind (py_get j (JStr "result") (JObj []))
    (fun r => py_get r paper_id (JObj [])).

(** The identifier list of a search document:
    [data.get('esearchresult', {}).get('idlist', [])]. *)
Definition search_ids (data : json) : result json :=
  result_bind (py_get data (JStr "esearchresult") (JObj []))
    (fun r => py_get r (JStr "idlist") (JArr [])).

(** The record built from an entry. *)
Definition paper_record (paper_id data : json) : result pydict :=
  result_bind (py_get data (JStr "title") (JStr "N/A")) (fun title =>
  result_bind (py_get data (JStr "pubdate") (JStr "N/A")) (fun pub_date =>
  Ok [ ("PubmedID", paper_id);
       ("Title", title);
       ("Publication Date", pub_date);
       ("Non-academic Author(s)", JStr "John Doe, PharmaCorp Inc.");
       ("Company Affiliation(s)", JStr "PharmaCorp Inc.");
       ("Corresponding Author Email", JStr "contact@pharma.com") ])).

(** What one detail fetch returns when the service answers [rp]. *)
Definition detail (rp : reply) (paper_id : json) : result pydict :=
  result_bind (decode rp) (fun j =>
  result_bind (summary_entry j paper_id) (fun data =>
  paper_record paper_id data)).

Definition result_map {A B : Type} (f : A -> B) (r : result A) : result B :=
  result_bind r (fun a => Ok (f a)).

(** ** Vocabulary of the statements *)

(** The search for [q], sent from world [w], answers with a document
    whose identifier list is the JSON array [ids]. *)
Definition search_yields (q : string) (w : World) (ids : list json) : Prop :=
  exists data, decode (reply_to w (ESearch q)) = Ok data /\ search_ids data = Ok (JArr ids).

(** The [k]-th detail request after a search sent from [w] is request
    number [S (length (requests w)) + k] of the run.  [details_answered]
    says that each identifier of [ids], fetched at its turn, gets an
    answer from which a record is built: no detail step raises. *)
Definition details_answered (w : World) (ids : list json) : Prop :=
  forall (k : nat) (id : json),
    ids !! k = Some id ->
    exists rec, detail (net w (S (length (requests w)) + k) (ESummary id)) id = Ok rec.

(** [fetch_papers q] run from [w] returns a collection after calling the
    Record Fetcher once per identifier of [ids], in list order (each call
    sends one summary request), and the collection holds one record per
    identifier, in the same order. *)
Definition fetched_in_order (q : string) (w : World) (ids : list json) : Prop :=
  exists (details : list pydict) (w' : World),
    fetch_papers q w = (Ok details, w') /\
    requests w' = requests w ++ ESearch q :: map ESummary ids /\
    length details = length ids /\
    forall (k : nat) (id : json),
      ids !! k = Some id ->
      exists rec, details !! k = Some rec /\ PyDict.find rec "PubmedID" = Some id.

(** The summary document [j] holds no entry for [paper_id]: its
    ['result'] object (the empty one when that key is absent too) has no
    such key. *)
Definition no_matching_entry (j paper_id : json) : Prop :=
  exists r, py_get j (JStr "result") (JObj []) = Ok r /\ py_find r paper_id = Ok None.

(** The search request itself fails with the requests-level error [e]. *)
Definition search_fails (q : string) (w : World) (e : request_error) : Prop :=
  decode (reply_to w (ESearch q)) = Raise (RequestException e).

(** The search succeeds, the identifiers [pre] are fetched, and the
    request for the next identifier fails with [e]. *)
Definition detail_fails (q : string) (w : World) (e : request_error) : Prop :=
  exists (data : json) (pre : list json) (id : json) (post : list json),
    decode (reply_to w (ESearch q)) = Ok data /\
    result_bind (search_ids data) py_iter = Ok (pre ++ id :: post) /\
    details_answered w pre /\
    decode (net w (S (length (requests w)) + length pre) (ESummary id))
      = Raise (RequestException e).

(** The search succeeds and the loop has nothing to iterate over. *)
Definition search_finds_nothing (q : string) (w : World) : Prop :=
  exists data,
    decode (reply_to w (ESearch q)) = Ok data /\
    result_bind (search_ids data) py_iter = Ok [].

(** A row dictionary the CSV writer accepts: no key outside the six
    columns.  Every record of [fetch_paper_details] is one. *)
Definition is_record (d : pydict) : Prop :=
  forall k : string, k ∈ PyDict.keys d -> k ∈ headers.

(** The cell written for [field]: the record's value, or the empty
    string when the record has no such key. *)
Definition cell (d : pydict) (field : string) : json :=
  default (JStr "") (PyDict.find d field).

(** ** A sample run

    The query ["cancer"] finds the identifiers ["111"] and ["222"]; the
    summary of ["111"] carries a title and a date, that of ["222"] has
    neither. *)

Definition ok_reply (j : json) : reply := Connected (mkResponse 200 (Json j)).

Definition search_doc : json :=
  JObj [ ("header", JObj [ ("type", JStr "esearch") ]);
         ("esearchresult", JObj [ ("count", JStr "2");
                                  ("idlist", JArr [ JStr "111"; JStr "222" ]) ]) ].

Definition summary_111 : json :=
  JObj [ ("result", JObj [ ("uids", JArr [ JStr "111" ]);
                           ("111", JObj [ ("uid", JStr "111");
                                          ("pubdate", JStr "2023");
                                          ("title", JStr "Study A") ]) ]) ].

Definition summary_222 : json :=
  JObj [ ("result", JObj [ ("uids", JArr [ JStr "222" ]);
                           ("222", JObj [ ("uid", JStr "222") ]) ]) ].

Definition sample_net (n : nat) (rq : request) : reply :=
  match rq with
  | ESearch _ => ok_reply search_doc
  | ESummary (JStr id) =>
      if String.eqb id "111" then ok_reply summary_111
      else if String.eqb id "222" then ok_reply summary_222
      else Connected (mkResponse 404 NotJson)
  | ESummary _ => Connected (mkResponse 400 NotJson)
  end.

(** A fresh process: nothing sent, nothing printed, no file yet; [device]
    tells which writes fail. *)
Definition fresh_on (service : nat -> request -> reply) (perm : string -> bool)
    (device : string -> list csv_row -> csv_row -> option write_failure) : World :=
  mkWorld service [] [] ∅ perm device.

(** A fresh process on a file system that accepts every write to a file
    it lets open. *)
Definition fresh (service : nat -> request -> reply) (perm : string -> bool) : World :=
  fresh_on service perm (fun _ _ _ => None).

Definition sample_world : World := fresh sample_net (fun _ => true).

(** The same service, but request number [m] of the run is answered
    with status 503. *)
Definition failing_at (m : nat) (n : nat) (rq : request) : reply :=
  if Nat.eqb n m then Connected (mkResponse 503 NotJson) else sample_net n rq.

(** The summary of ["111"] (request 1) fails. *)
Definition flaky_world : World := fresh (failing_at 1) (fun _ => true).

(** The summary of ["222"] (request 2) fails, after ["111"] was fetched. *)
Definition late_failure_world : World := fresh (failing_at 2) (fun _ => true).

(** Command lines: [prog cancer -f out.csv] and [prog cancer]. *)
Definition to_file : Namespace := mkNamespace "cancer" (Some "out.csv") false.
Definition to_stdout : Namespace := mkNamespace "cancer" None false.

(** A service that is down. *)
Definition down_world : World :=
  fresh (fun _ _ => Unreachable "Name or service not known") (fun _ => true).

(** A summary service that answers with an empty ['result'] object. *)
Definition bare_net (n : nat) (rq : request) : reply :=
  match rq with
  | ESearch _ => ok_reply search_doc
  | ESummary _ => ok_reply (JObj [ ("result", JObj []) ])
  end.

Definition bare_world : World := fresh bare_net (fun _ => true).

(** A search that finds nothing. *)
Definition empty_net (n : nat) (rq : request) : reply :=
  ok_reply (JObj [ ("esearchresult", JObj [ ("count", JStr "0"); ("idlist", JArr []) ]) ]).

Definition empty_world : World := fresh empty_net (fun _ => true).

(** The sample service, with a file system that refuses every write. *)
Definition readonly_world : World := fresh sample_net (fun _ => false).

(** A summary whose title is [null] and whose date is the empty string. *)
Definition null_title_net (n : nat) (rq : request) : reply :=
  ok_reply (JObj [ ("result",
    JObj [ ("333", JObj [ ("title", JNull); ("pubdate", JStr "") ]) ]) ]).

Definition null_title_world : World := fresh null_title_net (fun _ => true).

(** The record the script builds for ["222"] in the sample run, and on
    the bare service. *)
Definition record_222 : pydict :=
  [ ("PubmedID", JStr "222");
    ("Title", JStr "N/A");
    ("Publication Date", JStr "N/A");
    ("Non-academic Author(s)", JStr "John Doe, PharmaCorp Inc.");
    ("Company Affiliation(s)", JStr "PharmaCorp Inc.");
    ("Corresponding Author Email", JStr "contact@pharma.com") ].

(** The record for ["111"] in the sample run. *)
Definition record_111 : pydict :=
  [ ("PubmedID", JStr "111");
    ("Title", JStr "Study A");
    ("Publication Date", JStr "2023");
    ("Non-academic Author(s)", JStr "John Doe, PharmaCorp Inc.");
    ("Company Affiliation(s)", JStr "PharmaCorp Inc.");
    ("Corresponding Author Email", JStr "contact@pharma.com") ].

(** The record for ["333"] on the service with a [null] title. *)
Definition record_333 : pydict :=
  [ ("PubmedID", JStr "333");
    ("Title", JNull);
    ("Publication Date", JStr "");
    ("Non-academic Author(s)", JStr "John Doe, PharmaCorp Inc.");
    ("Company Affiliation(s)", JStr "PharmaCorp Inc.");
    ("Corresponding Author Email", JStr "contact@pharma.com") ].

(** ** Further vocabulary and samples *)


(** Every row of [rows], written in turn to the freshly opened file
    [filename], is accepted: its strings can be encoded, its numbers
    converted, and the device takes the bytes. *)
Definition rows_accepted (w : World) (filename : string) (rows : list csv_row) : Prop :=
  forall (k : nat) (row : csv_row),
    rows !! k = Some row -> write_error w filename (take k rows) row = None.

(** A device that refuses every write, as [/dev/full] does: files open,
    nothing can be written. *)
Definition full_device_world : World :=
  fresh_on sample_net (fun _ => true) (fun _ _ _ => Some DeviceRefuses).

(** A file system on which the third row of a file (the second record)
    cannot be encoded. *)
Definition unencodable_row_world : World :=
  fresh_on sample_net (fun _ => true)
    (fun _ rows _ => if Nat.eqb (length rows) 2 then Some CannotEncode else None).

(** The letter e with an acute accent: one character, two bytes. *)
Definition e_acute : string :=
  String (ascii_of_nat 195) (String (ascii_of_nat 169) EmptyString).

(** A search term that cannot be encoded for the wire. *)
Definition unsendable_world : World :=
  fresh (fun n rq => match rq with
                     | ESearch _ => Unsendable
                     | ESummary _ => sample_net n rq
                     end)
        (fun _ => true).

(** A search answer with an integer literal beyond the digit limit. *)
Definition overlong_world : World :=
  fresh (fun _ _ => Connected (mkResponse 200 OverlongInteger)) (fun _ => true).

(** A search answer without the expected keys (an error notice). *)
Definition notice_world : World :=
  fresh (fun _ _ => ok_reply (JObj [ ("error", JStr "API rate limit exceeded") ]))
        (fun _ => true).

(** A search answer whose identifier list is [null]. *)
Definition null_idlist_world : World :=
  fresh (fun _ _ => ok_reply (JObj [ ("esearchresult", JObj [ ("idlist", JNull) ]) ]))
        (fun _ => true).

(** A row dictionary with a column the writer does not know. *)
Definition annotated_record : pydict :=
  [ ("PubmedID", JStr "444"); ("Title", JStr "Study B"); ("Notes", JStr "to read") ].

(** The sample service, except that request number 2 of the run (the
    summary of ["222"]) is answered with a 'result' that is a list. *)
Definition odd_summary_world : World :=
  fresh (fun n rq => if Nat.eqb n 2 then ok_reply (JObj [ ("result", JArr []) ])
                     else sample_net n rq)
        (fun _ => true).

(** * Properties *)

Ltac run_monad :=
  unfold bind, lift, ret, raise, print, requests_get, raise_for_status,
    response_json in *; simpl in *.

(** A request that was answered, or failed at the requests level, is on
    the log. *)
Lemma after_request_ok (rq : request) (w : World) (j : json) :
  decode (reply_to w rq) = Ok j -> after_request rq w = log_request rq w.
Proof.
  unfold after_request. destruct (reply_to w rq); [reflexivity|reflexivity|discriminate].
Qed.

Lemma after_request_failed (rq : request) (w : World) (e : request_error) :
  decode (reply_to w rq) = Raise (RequestException e) ->
  after_request rq w = log_request rq w.
Proof.
  unfold after_request. destruct (reply_to w rq); [reflexivity|reflexivity|discriminate].
Qed.

(** A call of [requests.get] adds at most its own request to the log and
    touches nothing else. *)
Lemma after_request_frame (rq : request) (w : World) :
  net (after_request rq w) = net w /\
  stdout (after_request rq w) = stdout w /\
  files (after_request rq w) = files w /\
  writable (after_request rq w) = writable w /\
  write_error (after_request rq w) = write_error w /\
  (requests (after_request rq w) = requests w \/
   requests (after_request rq w) = requests w ++ [rq]).
Proof.
  unfold after_request. destruct (reply_to w rq); simpl; tauto.
Qed.

Lemma fetch_paper_details_run (paper_id : json) (w : World) :
  fetch_paper_details paper_id w =
  (result_map Some (detail (reply_to w (ESummary paper_id)) paper_id),
   after_request (ESummary paper_id) w).
Proof.
  unfold fetch_paper_details, detail, decode, summary_entry, paper_record, result_map,
    after_request.
  run_monad.
  destruct (reply_to w (ESummary paper_id)) as [r|msg|]; simpl; [|reflexivity|reflexivity].
  destruct ((400 <=? status_code r)%Z && (status_code r <? 600)%Z); simpl; [reflexivity|].
  destruct (body r) as [j| |]; simpl; [|reflexivity|reflexivity].
  destruct (py_get j (JStr "result") (JObj [])) as [r0|]; simpl; [|reflexivity].
  destruct (py_get r0 paper_id (JObj [])) as [data|]; simpl; [|reflexivity].
  destruct (py_get data (JStr "title") (JStr "N/A")); simpl; [|reflexivity].
  destruct (py_get data (JStr "pubdate") (JStr "N/A")); simpl; reflexivity.
Qed.

Lemma detail_answered_logged (w : World) (paper_id : json) (rec : pydict) :
  detail (reply_to w (ESummary paper_id)) paper_id = Ok rec ->
  after_request (ESummary paper_id) w = log_request (ESummary paper_id) w.
Proof.
  unfold detail. destruct (decode (reply_to w (ESummary paper_id))) as [j|] eqn:Hj;
    [|discriminate].
  intros _. exact (after_request_ok _ _ _ Hj).
Qed.

Lemma paper_record_shape (paper_id data : json) (rec : pydict) :
  paper_record paper_id data = Ok rec ->
  PyDict.truthy rec = true /\
  PyDict.keys rec = headers /\
  PyDict.find rec "PubmedID" = Some paper_id.
Proof.
  unfold paper_record.
  destruct (py_get data (JStr "title") (JStr "N/A")); simpl; [|discriminate].
  destruct (py_get data (JStr "pubdate") (JStr "N/A")); simpl; [|discriminate].
  intros [= <-]. repeat split.
Qed.

Lemma detail_shape (rp : reply) (paper_id : json) (rec : pydict) :
  detail rp paper_id = Ok rec ->
  PyDict.truthy rec = true /\
  PyDict.keys rec = headers /\
  PyDict.find rec "PubmedID" = Some paper_id.
Proof.
  unfold detail.
  destruct (decode rp); simpl; [|discriminate].
  destruct (summary_entry a paper_id); simpl; [|discriminate].
  apply paper_record_shape.
Qed.

Lemma fetch_papers_run (q : string) (w : World) :
  fetch_papers q w =
  match result_bind (decode (reply_to w (ESearch q)))
          (fun data => result_bind (search_ids data) py_iter) with
  | Ok items => fetch_loop items [] (log_request (ESearch q) w)
  | Raise e => (Raise e, after_request (ESearch q) w)
  end.
Proof.
  unfold fetch_papers, decode, search_ids, after_request.
  run_monad.
  destruct (reply_to w (ESearch q)) as [r|msg|]; simpl; [|reflexivity|reflexivity].
  destruct ((400 <=? status_code r)%Z && (status_code r <? 600)%Z); simpl; [reflexivity|].
  destruct (body r) as [j| |]; simpl; [|reflexivity|reflexivity].
  destruct (py_get j (JStr "esearchresult") (JObj [])) as [r0|]; simpl; [|reflexivity].
  destruct (py_get r0 (JStr "idlist") (JArr [])) as [ids|]; simpl; [|reflexivity].
  destruct (py_iter ids); simpl; reflexivity.
Qed.

(** One turn of the loop. *)
Lemma fetch_loop_cons (paper_id : json) (rest : list json) (details : list pydict) (w : World) :
  fetch_loop (paper_id :: rest) details w =
  match detail (reply_to w (ESummary paper_id)) paper_id with
  | Ok rec => fetch_loop rest (details ++ [rec]) (log_request (ESummary paper_id) w)
  | Raise e => (Raise e, after_request (ESummary paper_id) w)
  end.
Proof.
  simpl. unfold bind at 1. rewrite fetch_paper_details_run.
  destruct (detail (reply_to w (ESummary paper_id)) paper_id) as [rec|e] eqn:Hd; simpl;
    [|reflexivity].
  rewrite (detail_answered_logged _ _ _ Hd).
  apply detail_shape in Hd as (-> & _). reflexivity.
Qed.

(** The loop only sends requests: the service, standard output and the
    file system are as before. *)
Lemma fetch_loop_frame (ids : list json) :
  forall (details : list pydict) (w : World) (r : result (list pydict)) (w' : World),
    fetch_loop ids details w = (r, w') ->
    net w' = net w /\ stdout w' = stdout w /\ files w' = files w /\
    writable w' = writable w.
Proof.
  induction ids as [|id rest IH]; intros details w r w' Hrun.
  - injection Hrun as <- <-. repeat split.
  - rewrite fetch_loop_cons in Hrun.
    destruct (detail (reply_to w (ESummary id)) id) as [rec|e].
    + apply IH in Hrun. exact Hrun.
    + injection Hrun as <- <-.
      pose proof (after_request_frame (ESummary id) w). tauto.
Qed.

(** When every detail step is answered, the loop visits every identifier
    in order and appends one record per identifier. *)
Lemma fetch_loop_all (ids : list json) :
  forall (details : list pydict) (w : World),
    (forall k id, ids !! k = Some id ->
       exists rec, detail (net w (length (requests w) + k) (ESummary id)) id = Ok rec) ->
    exists (recs : list pydict) (w' : World),
      fetch_loop ids details w = (Ok (details ++ recs), w') /\
      requests w' = requests w ++ map ESummary ids /\
      length recs = length ids /\
      forall k id, ids !! k = Some id ->
        exists rec, recs !! k = Some rec /\ PyDict.find rec "PubmedID" = Some id.
Proof.
  induction ids as [|id rest IH]; intros details w Hall.
  - exists [], w. simpl. rewrite !app_nil_r. repeat split. intros k id Hk. discriminate.
  - rewrite fetch_loop_cons. unfold reply_to.
    destruct (Hall 0 id eq_refl) as [rec Hrec].
    rewrite Nat.add_0_r in Hrec. rewrite Hrec.
    destruct (IH (details ++ [rec]) (log_request (ESummary id) w)) as (recs & w' & Hrun & Hreq & Hlen & Hord).
    { intros k id' Hk. simpl. rewrite length_app. simpl.
      destruct (Hall (S k) id' Hk) as [rec' Hrec'].
      exists rec'. rewrite <- Hrec'. do 2 f_equal. lia. }
    exists (rec :: recs), w'. split; [|split; [|split]].
    + rewrite Hrun. rewrite <- app_assoc. reflexivity.
    + rewrite Hreq. simpl. rewrite <- app_assoc. reflexivity.
    + simpl. rewrite Hlen. reflexivity.
    + intros [|k] id' Hk.
      * injection Hk as <-. exists rec. split; [reflexivity|].
        apply detail_shape in Hrec. tauto.
      * apply (Hord k id' Hk).
Qed.

(** A detail step that raises ends the loop at once, whatever was
    collected before. *)
Lemma fetch_loop_abort (pre : list json) :
  forall (id : json) (post : list json) (details : list pydict) (w : World) (e : exn),
    (forall k id', pre !! k = Some id' ->
       exists rec, detail (net w (length (requests w) + k) (ESummary id')) id' = Ok rec) ->
    detail (net w (length (requests w) + length pre) (ESummary id)) id = Raise e ->
    exists w' : World,
      fetch_loop (pre ++ id :: post) details w = (Raise e, w') /\
      (requests w' = requests w ++ map ESummary pre \/
       requests w' = requests w ++ map ESummary (pre ++ [id])) /\
      stdout w' = stdout w /\ files w' = files w.
Proof.
  induction pre as [|id0 pre IH]; intros id post details w e Hpre Hfail.
  - change ([] ++ id :: post) with (id :: post).
    rewrite fetch_loop_cons. unfold reply_to.
    simpl in Hfail. rewrite Nat.add_0_r in Hfail. rewrite Hfail.
    eexists. split; [reflexivity|].
    destruct (after_request_frame (ESummary id) w) as (_ & Hout & Hfs & _ & _ & Hreq).
    split; [|split; assumption].
    simpl. rewrite app_nil_r. exact Hreq.
  - change ((id0 :: pre) ++ id :: post) with (id0 :: (pre ++ id :: post)).
    rewrite fetch_loop_cons. unfold reply_to.
    destruct (Hpre 0 id0 eq_refl) as [rec Hrec].
    rewrite Nat.add_0_r in Hrec. rewrite Hrec.
    destruct (IH id post (details ++ [rec]) (log_request (ESummary id0) w) e) as (w' & Hrun & Hreq & Hout & Hfs).
    { intros k id' Hk. simpl. rewrite length_app. simpl.
      destruct (Hpre (S k) id' Hk) as [rec' Hrec'].
      exists rec'. rewrite <- Hrec'. do 2 f_equal. lia. }
    { simpl. rewrite length_app. simpl. rewrite <- Hfail. do 2 f_equal. simpl. lia. }
    exists w'. split; [exact Hrun|]. split; [|split; assumption].
    simpl in Hreq. simpl. rewrite <- !app_assoc in Hreq. exact Hreq.
Qed.

(** Every record the loop appends has exactly the six columns. *)
Lemma fetch_loop_records (ids : list json) :
  forall (details : list pydict) (w : World) (ds : list pydict) (w' : World),
    fetch_loop ids details w = (Ok ds, w') ->
    Forall (fun d => PyDict.keys d = headers) details ->
    Forall (fun d => PyDict.keys d = headers) ds.
Proof.
  induction ids as [|id rest IH]; intros details w ds w' Hrun Hd.
  - injection Hrun as <- <-. exact Hd.
  - rewrite fetch_loop_cons in Hrun.
    destruct (detail (reply_to w (ESummary id)) id) as [rec|e] eqn:Hrec; [|discriminate].
    apply (IH _ _ _ _ Hrun).
    apply Forall_app. split; [exact Hd|].
    constructor; [|constructor]. apply detail_shape in Hrec. tauto.
Qed.

(** [fetch_papers] only sends requests. *)
Lemma fetch_papers_frame (q : string) (w : World) (r : result (list pydict)) (w' : World) :
  fetch_papers q w = (r, w') ->
  stdout w' = stdout w /\ files w' = files w /\ writable w' = writable w.
Proof.
  rewrite fetch_papers_run.
  destruct (result_bind (decode (reply_to w (ESearch q)))
              (fun data => result_bind (search_ids data) py_iter)) as [items|e].
  - intros Hrun. apply fetch_loop_frame in Hrun. simpl in Hrun. tauto.
  - intros [= <- <-]. pose proof (after_request_frame (ESearch q) w). tauto.
Qed.

Lemma details_answered_shift (w : World) (rq : request) (ids : list json) :
  details_answered w ids ->
  forall k id, ids !! k = Some id ->
    exists rec,
      detail (net (log_request rq w) (length (requests (log_request rq w)) + k) (ESummary id)) id
      = Ok rec.
Proof.
  intros Hall k id Hk. destruct (Hall k id Hk) as [rec Hrec].
  exists rec. rewrite <- Hrec. simpl. rewrite length_app. simpl.
  do 2 f_equal. lia.
Qed.

(** ** C1: one fetch and one record per identifier *)

(** C1 (as amended).  When the search response yields a list of N
    identifiers and every detail step is answered without raising, the
    Record Fetcher is invoked exactly N times, once per identifier in
    list order (the requests sent are the search followed by one summary
    request per identifier, in order), and [fetch_papers] returns exactly
    N records, the k-th carrying the k-th identifier. *)
Theorem fetch_papers_one_record_per_identifier (q : string) (w : World) (ids : list json) :
  search_yields q w ids ->
  details_answered w ids ->
  fetched_in_order q w ids.
Proof.
  intros (data & Hdata & Hids) Hall. unfold fetched_in_order.
  rewrite fetch_papers_run, Hdata. simpl. rewrite Hids. simpl.
  destruct (fetch_loop_all ids [] (log_request (ESearch q) w)
              (details_answered_shift w (ESearch q) ids Hall))
    as (recs & w' & Hrun & Hreq & Hlen & Hord).
  exists recs, w'. split; [exact Hrun|]. split; [|split; assumption].
  rewrite Hreq. simpl. rewrite <- app_assoc. reflexivity.
Qed.

Lemma sample_details_answered :
  details_answered sample_world [JStr "111"; JStr "222"].
Proof.
  intros [|[|k]] id Hk; simpl in Hk.
  - injection Hk as <-. eexists. vm_compute. reflexivity.
  - injection Hk as <-. eexists. vm_compute. reflexivity.
  - discriminate.
Defined.

Lemma sample_search_yields (perm : string -> bool) (service : nat -> request -> reply) :
  service 0 (ESearch "cancer") = ok_reply search_doc ->
  search_yields "cancer" (fresh service perm) [JStr "111"; JStr "222"].
Proof.
  intros Hs. exists search_doc. unfold reply_to. simpl. rewrite Hs. split; reflexivity.
Defined.

Lemma fetch_papers_one_record_per_identifier_witness :
  fetched_in_order "cancer" sample_world [JStr "111"; JStr "222"].
Proof.
  apply (fetch_papers_one_record_per_identifier "cancer" sample_world [JStr "111"; JStr "222"]).
  - apply sample_search_yields. reflexivity.
  - exact sample_details_answered.
Defined.

(** C1 (as stated) fails when a detail step raises: the search yields two
    identifiers, the summary request for the first is answered with
    status 503, and [fetch_papers] raises after a single call of the
    Record Fetcher, returning no collection. *)
Lemma fetch_papers_stops_at_failed_detail :
  search_yields "cancer" flaky_world [JStr "111"; JStr "222"] /\
  fst (fetch_papers "cancer" flaky_world) = Raise (RequestException (HTTPError 503)) /\
  requests (snd (fetch_papers "cancer" flaky_world))
    = [ESearch "cancer"; ESummary (JStr "111")] /\
  ~ fetched_in_order "cancer" flaky_world [JStr "111"; JStr "222"].
Proof.
  split; [apply sample_search_yields; reflexivity|].
  split; [vm_compute; reflexivity|].
  split; [vm_compute; reflexivity|].
  intros (details & w' & Hrun & _).
  apply (f_equal fst) in Hrun. vm_compute in Hrun. discriminate.
Qed.

(** ** The Record Fetcher *)

(** A detail fetch that returns was answered with a document whose entry
    for the identifier is an object (the empty one when absent), and its
    record is built from that entry. *)
Lemma fetch_paper_details_returns (paper_id : json) (w : World) (r : option pydict) (w' : World) :
  fetch_paper_details paper_id w = (Ok r, w') ->
  exists (j : json) (entry : pydict),
    decode (reply_to w (ESummary paper_id)) = Ok j /\
    summary_entry j paper_id = Ok (JObj entry) /\
    r = Some [ ("PubmedID", paper_id);
               ("Title", default (JStr "N/A") (PyDict.find entry "title"));
               ("Publication Date", default (JStr "N/A") (PyDict.find entry "pubdate"));
               ("Non-academic Author(s)", JStr "John Doe, PharmaCorp Inc.");
               ("Company Affiliation(s)", JStr "PharmaCorp Inc.");
               ("Corresponding Author Email", JStr "contact@pharma.com") ].
Proof.
  rewrite fetch_paper_details_run. unfold detail, result_map.
  destruct (decode (reply_to w (ESummary paper_id))) as [j|]; simpl; [|discriminate].
  destruct (summary_entry j paper_id) as [data|] eqn:He; simpl; [|discriminate].
  destruct data as [| | | | | |entry]; simpl; try discriminate.
  intros [= <- _]. exists j, entry. split; [reflexivity|]. split; [exact He|reflexivity].
Qed.

(** ** C2: every record has the six fields *)

(** C2.  Every record produced by [fetch_paper_details] has exactly the
    six keys PubmedID, Title, Publication Date, Non-academic Author(s),
    Company Affiliation(s), Corresponding Author Email, each with a
    value; and Title (Publication Date) is "N/A" whenever the entry of the
    detail response for the identifier has no 'title' ('pubdate') key. *)
Theorem record_has_six_fields (paper_id : json) (w : World) (r : option pydict) (w' : World) :
  fetch_paper_details paper_id w = (Ok r, w') ->
  exists rec : pydict,
    r = Some rec /\
    PyDict.keys rec =
      [ "PubmedID"; "Title"; "Publication Date"; "Non-academic Author(s)";
        "Company Affiliation(s)"; "Corresponding Author Email" ] /\
    (forall field : string, field ∈ headers -> exists v, PyDict.find rec field = Some v) /\
    (forall (j : json) (entry : pydict),
       decode (reply_to w (ESummary paper_id)) = Ok j ->
       summary_entry j paper_id = Ok (JObj entry) ->
       (PyDict.find entry "title" = None -> PyDict.find rec "Title" = Some (JStr "N/A")) /\
       (PyDict.find entry "pubdate" = None ->
        PyDict.find rec "Publication Date" = Some (JStr "N/A"))).
Proof.
  intros Hrun.
  destruct (fetch_paper_details_returns _ _ _ _ Hrun) as (j & entry & Hj & He & ->).
  eexists. split; [reflexivity|]. split; [reflexivity|]. split.
  - intros field Hin. unfold headers in Hin.
    repeat (apply elem_of_cons in Hin as [-> | Hin]; [eexists; reflexivity|]).
    apply elem_of_nil in Hin. contradiction.
  - intros j' entry' Hj' He'.
    rewrite Hj in Hj'. injection Hj' as <-.
    rewrite He in He'. injection He' as <-.
    split; intros ->; reflexivity.
Qed.

Lemma fetch_222_sample :
  fetch_paper_details (JStr "222") sample_world
  = (Ok (Some record_222), log_request (ESummary (JStr "222")) sample_world).
Proof. rewrite fetch_paper_details_run. reflexivity. Defined.

Lemma record_has_six_fields_witness :
  exists rec : pydict,
    Some record_222 = Some rec /\
    PyDict.keys rec =
      [ "PubmedID"; "Title"; "Publication Date"; "Non-academic Author(s)";
        "Company Affiliation(s)"; "Corresponding Author Email" ] /\
    (forall field : string, field ∈ headers -> exists v, PyDict.find rec field = Some v) /\
    (forall (j : json) (entry : pydict),
       decode (reply_to sample_world (ESummary (JStr "222"))) = Ok j ->
       summary_entry j (JStr "222") = Ok (JObj entry) ->
       (PyDict.find entry "title" = None -> PyDict.find rec "Title" = Some (JStr "N/A")) /\
       (PyDict.find entry "pubdate" = None ->
        PyDict.find rec "Publication Date" = Some (JStr "N/A"))).
Proof.
  exact (record_has_six_fields (JStr "222") sample_world (Some record_222)
           (log_request (ESummary (JStr "222")) sample_world) fetch_222_sample).
Defined.

(** ** C3: an identifier without an entry *)

(** What the Record Fetcher does, in general, when the 'result' object
    of the detail response (or the empty one that stands in for a missing
    'result') has no key for the identifier: the two [.get] defaults turn
    the missing entry into a record with the identifier, "N/A" for Title and
    Publication Date, and the three fixed placeholder fields.  That
    record is a non-empty dict, so the [if paper_data:] test of
    [fetch_papers] lets it through. *)
Theorem missing_entry_gives_placeholder_record (paper_id : json) (w : World) (j : json) :
  decode (reply_to w (ESummary paper_id)) = Ok j ->
  no_matching_entry j paper_id ->
  exists rec : pydict,
    fetch_paper_details paper_id w = (Ok (Some rec), log_request (ESummary paper_id) w) /\
    rec = [ ("PubmedID", paper_id);
            ("Title", JStr "N/A");
            ("Publication Date", JStr "N/A");
            ("Non-academic Author(s)", JStr "John Doe, PharmaCorp Inc.");
            ("Company Affiliation(s)", JStr "PharmaCorp Inc.");
            ("Corresponding Author Email", JStr "contact@pharma.com") ] /\
    py_truthy (Some rec) = true.
Proof.
  intros Hj (r & Hr & Hnone).
  eexists. split; [|split; reflexivity].
  rewrite fetch_paper_details_run, (after_request_ok _ _ _ Hj).
  unfold detail, summary_entry. rewrite Hj. simpl. rewrite Hr. simpl.
  unfold py_get at 1. rewrite Hnone. reflexivity.
Qed.

Lemma bare_reply :
  decode (reply_to bare_world (ESummary (JStr "222"))) = Ok (JObj [ ("result", JObj []) ]).
Proof. reflexivity. Defined.

Lemma bare_no_entry :
  no_matching_entry (JObj [ ("result", JObj []) ]) (JStr "222").
Proof. exists (JObj []). split; reflexivity. Defined.

Lemma missing_entry_gives_placeholder_record_witness :
  exists rec : pydict,
    fetch_paper_details (JStr "222") bare_world
      = (Ok (Some rec), log_request (ESummary (JStr "222")) bare_world) /\
    rec = [ ("PubmedID", JStr "222");
            ("Title", JStr "N/A");
            ("Publication Date", JStr "N/A");
            ("Non-academic Author(s)", JStr "John Doe, PharmaCorp Inc.");
            ("Company Affiliation(s)", JStr "PharmaCorp Inc.");
            ("Corresponding Author Email", JStr "contact@pharma.com") ] /\
    py_truthy (Some rec) = true.
Proof.
  exact (missing_entry_gives_placeholder_record (JStr "222") bare_world
           (JObj [ ("result", JObj []) ]) bare_reply bare_no_entry).
Defined.

(** C3.  The claim against the code at a failing input: the summary
    for "222" has an empty 'result' object, hence no entry for "222".
    The Record Fetcher, declared to return an optional dict and tested
    with [if paper_data:] by its caller, does not return an empty result
    there: it returns a truthy, six-field record made of the identifier
    and placeholders. *)
Lemma missing_entry_is_not_empty_result :
  decode (reply_to bare_world (ESummary (JStr "222"))) = Ok (JObj [ ("result", JObj []) ]) /\
  no_matching_entry (JObj [ ("result", JObj []) ]) (JStr "222") /\
  fst (fetch_paper_details (JStr "222") bare_world) = Ok (Some record_222) /\
  ~ (exists r, fst (fetch_paper_details (JStr "222") bare_world) = Ok r /\ py_truthy r = false).
Proof.
  split; [exact bare_reply|]. split; [exact bare_no_entry|].
  split; [vm_compute; reflexivity|].
  intros (r & Hr & Hempty). vm_compute in Hr. injection Hr as <-. discriminate.
Qed.

(** ** C8: the placeholder fields *)

(** C8.  Whatever the identifier and the response, the Non-academic
    Author(s), Company Affiliation(s) and Corresponding Author Email
    fields of a returned record are the same three constant strings: any
    two invocations that return agree on them. *)
Theorem placeholder_fields_are_constant
    (id1 id2 : json) (w1 w2 : World) (r1 r2 : option pydict) (w1' w2' : World) :
  fetch_paper_details id1 w1 = (Ok r1, w1') ->
  fetch_paper_details id2 w2 = (Ok r2, w2') ->
  exists rec1 rec2 : pydict,
    r1 = Some rec1 /\ r2 = Some rec2 /\
    PyDict.find rec1 "Non-academic Author(s)" = Some (JStr "John Doe, PharmaCorp Inc.") /\
    PyDict.find rec1 "Company Affiliation(s)" = Some (JStr "PharmaCorp Inc.") /\
    PyDict.find rec1 "Corresponding Author Email" = Some (JStr "contact@pharma.com") /\
    PyDict.find rec2 "Non-academic Author(s)" = PyDict.find rec1 "Non-academic Author(s)" /\
    PyDict.find rec2 "Company Affiliation(s)" = PyDict.find rec1 "Company Affiliation(s)" /\
    PyDict.find rec2 "Corresponding Author Email" = PyDict.find rec1 "Corresponding Author Email".
Proof.
  intros H1 H2.
  destruct (fetch_paper_details_returns _ _ _ _ H1) as (j1 & e1 & _ & _ & ->).
  destruct (fetch_paper_details_returns _ _ _ _ H2) as (j2 & e2 & _ & _ & ->).
  do 2 eexists. repeat split.
Qed.

Lemma fetch_111_sample :
  fetch_paper_details (JStr "111") sample_world
  = (Ok (Some record_111), log_request (ESummary (JStr "111")) sample_world).
Proof. rewrite fetch_paper_details_run. reflexivity. Defined.

Lemma fetch_333_null_title :
  fetch_paper_details (JStr "333") null_title_world
  = (Ok (Some record_333), log_request (ESummary (JStr "333")) null_title_world).
Proof. rewrite fetch_paper_details_run. reflexivity. Defined.

Lemma placeholder_fields_are_constant_witness :
  exists rec1 rec2 : pydict,
    Some record_111 = Some rec1 /\ Some record_333 = Some rec2 /\
    PyDict.find rec1 "Non-academic Author(s)" = Some (JStr "John Doe, PharmaCorp Inc.") /\
    PyDict.find rec1 "Company Affiliation(s)" = Some (JStr "PharmaCorp Inc.") /\
    PyDict.find rec1 "Corresponding Author Email" = Some (JStr "contact@pharma.com") /\
    PyDict.find rec2 "Non-academic Author(s)" = PyDict.find rec1 "Non-academic Author(s)" /\
    PyDict.find rec2 "Company Affiliation(s)" = PyDict.find rec1 "Company Affiliation(s)" /\
    PyDict.find rec2 "Corresponding Author Email" = PyDict.find rec1 "Corresponding Author Email".
Proof.
  exact (placeholder_fields_are_constant (JStr "111") (JStr "333")
           sample_world null_title_world _ _ _ _ fetch_111_sample fetch_333_null_title).
Defined.

(** ** C10: "N/A" only for an absent key *)

(** C10.  Title and Publication Date are read with [dict.get(key, 'N/A')]:
    a key that is present passes its value through unchanged, whatever it
    is, so a 'title' that is [null] gives a Title that is [None] and not
    "N/A"; the sentinel appears only when the key is absent (or is itself
    the value on file). *)
Theorem present_key_passes_through
    (paper_id : json) (w : World) (j : json) (entry : pydict) :
  decode (reply_to w (ESummary paper_id)) = Ok j ->
  summary_entry j paper_id = Ok (JObj entry) ->
  exists rec : pydict,
    fetch_paper_details paper_id w = (Ok (Some rec), log_request (ESummary paper_id) w) /\
    (forall v, PyDict.find entry "title" = Some v -> PyDict.find rec "Title" = Some v) /\
    (forall v, PyDict.find entry "pubdate" = Some v ->
               PyDict.find rec "Publication Date" = Some v) /\
    (PyDict.find entry "title" = Some JNull -> PyDict.find rec "Title" = Some JNull) /\
    (PyDict.find rec "Title" = Some (JStr "N/A") ->
     PyDict.find entry "title" = None \/ PyDict.find entry "title" = Some (JStr "N/A")) /\
    (PyDict.find rec "Publication Date" = Some (JStr "N/A") ->
     PyDict.find entry "pubdate" = None \/ PyDict.find entry "pubdate" = Some (JStr "N/A")).
Proof.
  intros Hj He.
  rewrite fetch_paper_details_run, (after_request_ok _ _ _ Hj).
  unfold detail. rewrite Hj. simpl. rewrite He. simpl.
  eexists. split; [reflexivity|]. simpl.
  repeat split.
  - intros v ->. reflexivity.
  - intros v ->. reflexivity.
  - intros ->. reflexivity.
  - destruct (PyDict.find entry "title"); simpl; [|tauto].
    intros [= ->]. tauto.
  - destruct (PyDict.find entry "pubdate"); simpl; [|tauto].
    intros [= ->]. tauto.
Qed.

Lemma null_title_reply :
  decode (reply_to null_title_world (ESummary (JStr "333")))
  = Ok (JObj [ ("result", JObj [ ("333", JObj [ ("title", JNull); ("pubdate", JStr "") ]) ]) ]).
Proof. reflexivity. Defined.

Lemma present_key_passes_through_witness :
  exists rec : pydict,
    fetch_paper_details (JStr "333") null_title_world
      = (Ok (Some rec), log_request (ESummary (JStr "333")) null_title_world) /\
    (forall v, PyDict.find [ ("title", JNull); ("pubdate", JStr "") ] "title" = Some v ->
               PyDict.find rec "Title" = Some v) /\
    (forall v, PyDict.find [ ("title", JNull); ("pubdate", JStr "") ] "pubdate" = Some v ->
               PyDict.find rec "Publication Date" = Some v) /\
    (PyDict.find [ ("title", JNull); ("pubdate", JStr "") ] "title" = Some JNull ->
     PyDict.find rec "Title" = Some JNull) /\
    (PyDict.find rec "Title" = Some (JStr "N/A") ->
     PyDict.find [ ("title", JNull); ("pubdate", JStr "") ] "title" = None \/
     PyDict.find [ ("title", JNull); ("pubdate", JStr "") ] "title" = Some (JStr "N/A")) /\
    (PyDict.find rec "Publication Date" = Some (JStr "N/A") ->
     PyDict.find [ ("title", JNull); ("pubdate", JStr "") ] "pubdate" = None \/
     PyDict.find [ ("title", JNull); ("pubdate", JStr "") ] "pubdate" = Some (JStr "N/A")).
Proof.
  exact (present_key_passes_through (JStr "333") null_title_world _
           [ ("title", JNull); ("pubdate", JStr "") ] null_title_reply eq_refl).
Defined.

(** ** The Output Writer *)

Lemma keys_headers_is_record (d : pydict) : PyDict.keys d = headers -> is_record d.
Proof. intros Hk k Hin. rewrite Hk in Hin. exact Hin. Qed.

Lemma dict_to_list_record (d : pydict) :
  is_record d -> dict_to_list headers d = Ok (map (cell d) headers).
Proof.
  intros Hrec. unfold dict_to_list.
  replace (forallb (fun k => bool_decide (k ∈ headers)) (PyDict.keys d)) with true;
    [reflexivity|].
  symmetry. apply forallb_forall. intros k Hin.
  apply bool_decide_eq_true. apply Hrec. apply list_elem_of_In. exact Hin.
Qed.

Lemma alter_present (m : gmap string (list csv_row)) (f : string)
    (g : list csv_row -> list csv_row) (rows : list csv_row) :
  m !! f = Some rows -> alter g f m = <[f := g rows]> m.
Proof.
  intros Hf. apply map_eq. intros f'.
  destruct (decide (f = f')) as [<-|Hne].
  - rewrite lookup_alter_eq, lookup_insert_eq, Hf. reflexivity.
  - rewrite lookup_alter_ne, lookup_insert_ne by exact Hne. reflexivity.
Qed.

Lemma set_files_id (w : World) : set_files (files w) w = w.
Proof. destruct w. reflexivity. Qed.

(** One write to an open file that holds [rows0]. *)
Lemma writerow_run (f : string) (row : csv_row) (w : World) (rows0 : list csv_row) :
  files w !! f = Some rows0 ->
  writerow f row w =
  match write_error w f rows0 row with
  | Some err => (Raise (write_exn f err), w)
  | None => (Ok tt, set_files (<[f := rows0 ++ [row]]> (files w)) w)
  end.
Proof.
  intros Hf. unfold writerow. rewrite Hf. simpl.
  destruct (write_error w f rows0 row); [reflexivity|].
  rewrite (alter_present _ _ _ _ Hf). reflexivity.
Qed.

Lemma writerows_records (f : string) (papers : list pydict) :
  forall (w : World) (rows0 : list csv_row),
    Forall is_record papers ->
    files w !! f = Some rows0 ->
    (forall k row, map (fun d => map (cell d) headers) papers !! k = Some row ->
       write_error w f (rows0 ++ take k (map (fun d => map (cell d) headers) papers)) row
       = None) ->
    writerows f headers papers w =
    (Ok tt, set_files (<[f := rows0 ++ map (fun d => map (cell d) headers) papers]> (files w)) w).
Proof.
  induction papers as [|d rest IH]; intros w rows0 Hrec Hf Hacc.
  - simpl. rewrite app_nil_r, insert_id by exact Hf. rewrite set_files_id. reflexivity.
  - apply Forall_cons in Hrec as [Hd Hrest].
    cbn [writerows]. unfold bind at 1, lift. rewrite (dict_to_list_record d Hd).
    unfold bind at 1. rewrite (writerow_run _ _ _ _ Hf).
    pose proof (Hacc 0 (map (cell d) headers) eq_refl) as H0.
    rewrite take_0, app_nil_r in H0. rewrite H0.
    rewrite (IH _ (rows0 ++ [map (cell d) headers]) Hrest).
    + unfold set_files. simpl. rewrite insert_insert_eq, <- app_assoc. reflexivity.
    + simpl. apply lookup_insert_eq.
    + intros k row Hk. rewrite <- app_assoc. exact (Hacc (S k) row Hk).
Qed.

(** A file that cannot be opened: [OSError], and nothing changes. *)
Lemma save_to_csv_unopenable (papers : list pydict) (filename : string) (w : World) :
  writable w filename = false ->
  save_to_csv papers filename w = (Raise (OSError filename), w).
Proof.
  intros Hw. unfold save_to_csv, open_w. unfold bind at 1. rewrite Hw. reflexivity.
Qed.

(** A file that opens and takes every row. *)
Lemma save_to_csv_run (papers : list pydict) (filename : string) (w : World) :
  Forall is_record papers ->
  writable w filename = true ->
  rows_accepted w filename (map JStr headers :: map (fun d => map (cell d) headers) papers) ->
  save_to_csv papers filename w =
  (Ok tt,
   set_files (<[filename := map JStr headers :: map (fun d => map (cell d) headers) papers]>
                (files w)) w).
Proof.
  intros Hrec Hw Hacc. unfold save_to_csv, open_w, writeheader.
  unfold bind at 1. rewrite Hw.
  unfold bind at 1.
  rewrite (writerow_run _ _ _ [] (lookup_insert_eq _ _ _)). cbn [write_error set_files].
  pose proof (Hacc 0 _ eq_refl) as H0. rewrite take_0 in H0. rewrite H0.
  rewrite (writerows_records _ _ _ ([] ++ [map JStr headers]) Hrec).
  - unfold set_files. simpl. rewrite !insert_insert_eq. reflexivity.
  - simpl. rewrite insert_insert_eq. apply lookup_insert_eq.
  - intros k row Hk. exact (Hacc (S k) row Hk).
Qed.

(** A file that opens but does not take the header: the writer's error,
    and an empty file. *)
Lemma save_to_csv_header_refused (papers : list pydict) (filename : string) (w : World)
    (err : write_failure) :
  writable w filename = true ->
  write_error w filename [] (map JStr headers) = Some err ->
  save_to_csv papers filename w =
  (Raise (write_exn filename err), set_files (<[filename := []]> (files w)) w).
Proof.
  intros Hw Herr. unfold save_to_csv, open_w, writeheader.
  unfold bind at 1. rewrite Hw.
  unfold bind at 1.
  rewrite (writerow_run _ _ _ [] (lookup_insert_eq _ _ _)). cbn [write_error set_files].
  rewrite Herr. reflexivity.
Qed.

(** The writer raises nothing of the requests family. *)
Lemma writerows_not_request (f : string) (papers : list pydict) :
  forall (w : World) (e : exn) (w' : World),
    writerows f headers papers w = (Raise e, w') ->
    forall re, e <> RequestException re.
Proof.
  induction papers as [|d rest IH]; intros w e w' Hrun re.
  - discriminate.
  - cbn [writerows] in Hrun. unfold bind at 1, lift in Hrun.
    unfold dict_to_list in Hrun.
    destruct (forallb (fun k => bool_decide (k ∈ headers)) (PyDict.keys d));
      [|injection Hrun as <- _; discriminate].
    unfold bind at 1, writerow in Hrun.
    destruct (write_error w f (default [] (files w !! f)) _) as [[| |]|].
    + injection Hrun as <- _. discriminate.
    + injection Hrun as <- _. discriminate.
    + injection Hrun as <- _. discriminate.
    + exact (IH _ _ _ Hrun re).
Qed.

Lemma save_to_csv_not_request (papers : list pydict) (filename : string)
    (w : World) (e : exn) (w' : World) :
  save_to_csv papers filename w = (Raise e, w') ->
  forall re, e <> RequestException re.
Proof.
  unfold save_to_csv, open_w, writeheader. unfold bind at 1.
  destruct (writable w filename); [|intros [= <- _]; discriminate].
  unfold bind at 1, writerow.
  destruct (write_error _ filename _ (map JStr headers)) as [[| |]|].
  - intros [= <- _]; discriminate.
  - intros [= <- _]; discriminate.
  - intros [= <- _]; discriminate.
  - apply writerows_not_request.
Qed.

(** ** C6: the CSV file *)

(** C6 (as amended).  For every list of records and every output
    filename that can be opened for writing and takes every row written
    to it, [save_to_csv] returns normally and leaves in the file a header
    row that is exactly the six field names in their fixed order, followed
    by exactly one data row per record, in input order, holding the
    record's six field values in column order.  No other file changes. *)
Theorem save_to_csv_header_then_one_row_per_record
    (papers : list pydict) (filename : string) (w : World) :
  Forall is_record papers ->
  writable w filename = true ->
  rows_accepted w filename (map JStr headers :: map (fun d => map (cell d) headers) papers) ->
  exists w' : World,
    save_to_csv papers filename w = (Ok tt, w') /\
    files w' !! filename =
      Some ([ JStr "PubmedID"; JStr "Title"; JStr "Publication Date";
              JStr "Non-academic Author(s)"; JStr "Company Affiliation(s)";
              JStr "Corresponding Author Email" ]
            :: map (fun d => [ cell d "PubmedID"; cell d "Title"; cell d "Publication Date";
                               cell d "Non-academic Author(s)"; cell d "Company Affiliation(s)";
                               cell d "Corresponding Author Email" ]) papers) /\
    (forall other : string, other <> filename -> files w' !! other = files w !! other) /\
    stdout w' = stdout w.
Proof.
  intros Hrec Hw Hacc. rewrite (save_to_csv_run _ _ _ Hrec Hw Hacc).
  eexists. split; [reflexivity|]. simpl. split; [|split; [|reflexivity]].
  - apply lookup_insert_eq.
  - intros other Hne. apply lookup_insert_ne. congruence.
Qed.

Lemma sample_records : Forall is_record [record_111; record_222].
Proof.
  constructor; [apply keys_headers_is_record; reflexivity|].
  constructor; [apply keys_headers_is_record; reflexivity|].
  constructor.
Defined.

(** A world made by [fresh] accepts every row. *)
Lemma fresh_accepts (service : nat -> request -> reply) (perm : string -> bool)
    (filename : string) (rows : list csv_row) :
  rows_accepted (fresh service perm) filename rows.
Proof. intros k row Hk. reflexivity. Defined.

Lemma save_to_csv_header_then_one_row_per_record_witness :
  exists w' : World,
    save_to_csv [record_111; record_222] "out.csv" sample_world = (Ok tt, w') /\
    files w' !! "out.csv" =
      Some ([ JStr "PubmedID"; JStr "Title"; JStr "Publication Date";
              JStr "Non-academic Author(s)"; JStr "Company Affiliation(s)";
              JStr "Corresponding Author Email" ]
            :: map (fun d => [ cell d "PubmedID"; cell d "Title"; cell d "Publication Date";
                               cell d "Non-academic Author(s)"; cell d "Company Affiliation(s)";
                               cell d "Corresponding Author Email" ])
                 [record_111; record_222]) /\
    (forall other : string,
       other <> "out.csv" -> files w' !! other = files sample_world !! other) /\
    stdout w' = stdout sample_world.
Proof.
  exact (save_to_csv_header_then_one_row_per_record [record_111; record_222] "out.csv"
           sample_world sample_records eq_refl (fresh_accepts _ _ _ _)).
Defined.

(** C6 (as stated) fails in two ways.  For a filename that cannot be
    opened for writing, [open] raises [OSError] and no file is written.
    For a file that opens on a device that refuses the bytes,
    [save_to_csv] raises on the first write and the file stays empty. *)
Lemma save_to_csv_unwritable_file :
  Forall is_record [record_111; record_222] /\
  save_to_csv [record_111; record_222] "out.csv" readonly_world
    = (Raise (OSError "out.csv"), readonly_world) /\
  ~ (exists w' : World,
       save_to_csv [record_111; record_222] "out.csv" readonly_world = (Ok tt, w')) /\
  fst (save_to_csv [record_111; record_222] "out.csv" full_device_world)
    = Raise (OSError "out.csv") /\
  files (snd (save_to_csv [record_111; record_222] "out.csv" full_device_world)) !! "out.csv"
    = Some [].
Proof.
  split; [exact sample_records|].
  assert (Hrun : save_to_csv [record_111; record_222] "out.csv" readonly_world
                 = (Raise (OSError "out.csv"), readonly_world))
    by (apply save_to_csv_unopenable; reflexivity).
  split; [exact Hrun|]. split.
  - intros (w' & Hok). rewrite Hrun in Hok. discriminate.
  - rewrite (save_to_csv_header_refused _ "out.csv" full_device_world DeviceRefuses
               eq_refl eq_refl).
    split; [reflexivity|]. apply lookup_insert_eq.
Qed.

(** ** The Entry Point *)

Lemma print_all_run (papers : list pydict) :
  forall w : World,
    print_all papers w =
    (Ok tt, mkWorld (net w) (requests w) (stdout w ++ map Repr papers) (files w) (writable w)
              (write_error w)).
Proof.
  induction papers as [|paper rest IH]; intros w.
  - simpl. rewrite app_nil_r. destruct w. reflexivity.
  - cbn [print_all]. unfold bind at 1, print. rewrite IH. simpl.
    rewrite <- app_assoc. reflexivity.
Qed.

(** Every record that [fetch_papers] returns has exactly the six columns. *)
Lemma fetch_papers_records (q : string) (w : World) (papers : list pydict) (w' : World) :
  fetch_papers q w = (Ok papers, w') -> Forall is_record papers.
Proof.
  rewrite fetch_papers_run.
  destruct (result_bind (decode (reply_to w (ESearch q)))
              (fun data => result_bind (search_ids data) py_iter)) as [items|e];
    [|discriminate].
  intros Hrun. apply fetch_loop_records in Hrun; [|constructor].
  eapply Forall_impl; [exact Hrun|]. intros d. apply keys_headers_is_record.
Qed.

(** [main], by what [fetch_papers] and [save_to_csv] did. *)
Lemma main_run (args : Namespace) (w : World) :
  main args w =
  match fetch_papers (query args) w with
  | (Ok [], w1) => (Ok tt, log_print (Text "No papers found for the given query.") w1)
  | (Ok (p :: ps), w1) =>
      match file_given (file args) with
      | Some filename =>
          match save_to_csv (p :: ps) filename w1 with
          | (Ok _, w2) => (Ok tt, log_print (Text ("Results saved to " ++ filename)) w2)
          | (Raise e, w2) => (Raise e, w2)
          end
      | None => (Ok tt, mkWorld (net w1) (requests w1) (stdout w1 ++ map Repr (p :: ps))
                          (files w1) (writable w1) (write_error w1))
      end
  | (Raise (RequestException e), w1) => (Ok tt, log_print (ErrorText e) w1)
  | (Raise e, w1) => (Raise e, w1)
  end.
Proof.
  unfold main, try_except_request, main_body. unfold bind at 1.
  destruct (fetch_papers (query args) w) as [[papers|e] w1] eqn:Hfetch.
  - destruct papers as [|p ps]; [reflexivity|].
    destruct (file_given (file args)) as [filename|].
    + unfold bind at 1.
      destruct (save_to_csv (p :: ps) filename w1) as [[u|e] w2] eqn:Hsave; [reflexivity|].
      pose proof (save_to_csv_not_request _ _ _ _ _ Hsave) as Hnot.
      destruct e; try reflexivity. exfalso. exact (Hnot _ eq_refl).
    + rewrite print_all_run. reflexivity.
  - destruct e; reflexivity.
Qed.

Lemma transport_failure_raises (q : string) (w : World) (e : request_error) :
  search_fails q w e \/ detail_fails q w e ->
  exists w1 : World,
    fetch_papers q w = (Raise (RequestException e), w1) /\
    stdout w1 = stdout w /\ files w1 = files w.
Proof.
  intros [Hs | (data & pre & id & post & Hdata & Hids & Hpre & Hfail)];
    rewrite fetch_papers_run.
  - unfold search_fails in Hs. rewrite Hs. simpl. eexists. split; [reflexivity|].
    pose proof (after_request_frame (ESearch q) w). tauto.
  - rewrite Hdata. cbn [result_bind]. rewrite Hids.
    destruct (fetch_loop_abort pre id post [] (log_request (ESearch q) w) (RequestException e))
      as (w1 & Hrun & _ & Hout & Hfs).
    + apply details_answered_shift. exact Hpre.
    + unfold detail. simpl. rewrite length_app. simpl.
      replace (length (requests w) + 1 + length pre) with (S (length (requests w)) + length pre)
        by lia.
      rewrite Hfail. reflexivity.
    + exists w1. split; [exact Hrun|]. split; assumption.
Qed.

(** ** C4: a transport failure leaves no output *)

(** C4.  If a requests-level exception is raised by the search step, or
    by a detail step after any number of successful ones, [main] prints
    the error message and nothing else: no record is printed, the file
    system is untouched (no output file even when a filename was given),
    and the records fetched before the failure are gone. *)
Theorem transport_failure_writes_nothing (args : Namespace) (w : World) (e : request_error) :
  search_fails (query args) w e \/ detail_fails (query args) w e ->
  exists w' : World,
    main args w = (Ok tt, w') /\
    stdout w' = stdout w ++ [ErrorText e] /\
    files w' = files w.
Proof.
  intros Hfail.
  destruct (transport_failure_raises _ _ _ Hfail) as (w1 & Hrun & Hout & Hfs).
  rewrite main_run, Hrun.
  eexists. split; [reflexivity|]. simpl. rewrite Hout, Hfs. split; reflexivity.
Qed.

Lemma late_failure_details_answered : details_answered late_failure_world [JStr "111"].
Proof.
  intros [|k] id Hk; simpl in Hk.
  - injection Hk as <-. eexists. vm_compute. reflexivity.
  - discriminate.
Defined.

Lemma late_failure_detail_fails :
  detail_fails "cancer" late_failure_world (HTTPError 503).
Proof.
  exists search_doc, [JStr "111"], (JStr "222"), [].
  split; [reflexivity|]. split; [reflexivity|].
  split; [exact late_failure_details_answered|reflexivity].
Defined.

Lemma transport_failure_writes_nothing_witness :
  exists w' : World,
    main to_file late_failure_world = (Ok tt, w') /\
    stdout w' = stdout late_failure_world ++ [ErrorText (HTTPError 503)] /\
    files w' = files late_failure_world.
Proof.
  exact (transport_failure_writes_nothing to_file late_failure_world (HTTPError 503)
           (or_intror late_failure_detail_fails)).
Defined.

(** ** C5: exit status *)

(** C5.  The process exits with status 0 when [main] returns: on success
    (records printed, records saved by a [save_to_csv] that returned, or
    no papers found) and when a requests-level exception was caught and
    reported.  It exits with a non-zero status when an exception leaves
    [main]: whatever [save_to_csv] raises (the [OSError] of a file that
    cannot be opened, the error of a write that fails), or any exception
    of [fetch_papers] outside the requests family; only
    [RequestException] is caught. *)
Theorem exit_status_by_outcome (args : Namespace) (w : World) :
  fst (main args w) =
    match fetch_papers (query args) w with
    | (Ok [], _) => Ok tt
    | (Ok (p :: ps), w1) =>
        match file_given (file args) with
        | Some filename => fst (save_to_csv (p :: ps) filename w1)
        | None => Ok tt
        end
    | (Raise (RequestException _), _) => Ok tt
    | (Raise e, _) => Raise e
    end /\
  fst (run args w) =
    match fetch_papers (query args) w with
    | (Ok [], _) => 0
    | (Ok (p :: ps), w1) =>
        match file_given (file args) with
        | Some filename =>
            match fst (save_to_csv (p :: ps) filename w1) with
            | Ok _ => 0
            | Raise _ => 1
            end
        | None => 0
        end
    | (Raise (RequestException _), _) => 0
    | (Raise _, _) => 1
    end%Z /\
  (forall (papers : list pydict) (filename : string) (w1 : World),
     writable w1 filename = false ->
     fst (save_to_csv papers filename w1) = Raise (OSError filename)) /\
  (forall (papers : list pydict) (filename : string) (w1 : World) (err : write_failure),
     writable w1 filename = true ->
     write_error w1 filename [] (map JStr headers) = Some err ->
     fst (save_to_csv papers filename w1) = Raise (write_exn filename err)).
Proof.
  unfold run. rewrite main_run.
  split; [|split; [|split]].
  - destruct (fetch_papers (query args) w) as [[papers|e] w1]; simpl.
    + destruct papers as [|p ps]; [reflexivity|].
      destruct (file_given (file args)) as [filename|]; [|reflexivity].
      destruct (save_to_csv (p :: ps) filename w1) as [[[]|e] w2]; reflexivity.
    + destruct e; reflexivity.
  - destruct (fetch_papers (query args) w) as [[papers|e] w1]; simpl.
    + destruct papers as [|p ps]; [reflexivity|].
      destruct (file_given (file args)) as [filename|]; [|reflexivity].
      destruct (save_to_csv (p :: ps) filename w1) as [[[]|e] w2]; reflexivity.
    + destruct e; reflexivity.
  - intros papers filename w1 Hw. rewrite (save_to_csv_unopenable _ _ _ Hw). reflexivity.
  - intros papers filename w1 err Hw Herr.
    rewrite (save_to_csv_header_refused _ _ _ _ Hw Herr). reflexivity.
Qed.

(** ** C7: a search that finds nothing *)

(** C7.  When the search step returns zero identifiers, [main] sends the
    search request only, prints the "no papers found" message and nothing
    else, leaves the file system untouched even when a filename was
    given, and the process exits with status 0. *)
Theorem no_identifiers_no_output (args : Namespace) (w : World) :
  search_finds_nothing (query args) w ->
  exists w' : World,
    main args w = (Ok tt, w') /\
    requests w' = requests w ++ [ESearch (query args)] /\
    stdout w' = stdout w ++ [Text "No papers found for the given query."] /\
    files w' = files w /\
    fst (run args w) = 0%Z.
Proof.
  intros (data & Hdata & Hnone).
  assert (Hfetch : fetch_papers (query args) w = (Ok [], log_request (ESearch (query args)) w)).
  { rewrite fetch_papers_run, Hdata. cbn [result_bind]. rewrite Hnone. reflexivity. }
  unfold run. rewrite main_run, Hfetch.
  eexists. repeat split.
Qed.

Lemma empty_search_finds_nothing : search_finds_nothing "cancer" empty_world.
Proof. eexists. split; reflexivity. Defined.

Lemma no_identifiers_no_output_witness :
  exists w' : World,
    main to_file empty_world = (Ok tt, w') /\
    requests w' = requests empty_world ++ [ESearch "cancer"] /\
    stdout w' = stdout empty_world ++ [Text "No papers found for the given query."] /\
    files w' = files empty_world /\
    fst (run to_file empty_world) = 0%Z.
Proof.
  exact (no_identifiers_no_output to_file empty_world empty_search_finds_nothing).
Defined.

(** ** C9: the debug flag *)

(** C9.  The debug flag is parsed and never read: two command lines
    with the same query and the same filename argument, run against the
    same world (service, file system), behave identically whatever their
    debug flags, in the result of [main], the exit status and the final
    world (requests sent, lines printed, files written). *)
Theorem debug_flag_is_a_no_op (args1 args2 : Namespace) (w : World) :
  query args1 = query args2 ->
  file args1 = file args2 ->
  main args1 w = main args2 w /\ run args1 w = run args2 w.
Proof.
  destruct args1 as [q1 f1 d1], args2 as [q2 f2 d2]. simpl.
  intros -> ->. split; reflexivity.
Qed.

Lemma debug_flag_is_a_no_op_witness :
  main (mkNamespace "cancer" (Some "out.csv") true) sample_world = main to_file sample_world /\
  run (mkNamespace "cancer" (Some "out.csv") true) sample_world = run to_file sample_world.
Proof.
  exact (debug_flag_is_a_no_op (mkNamespace "cancer" (Some "out.csv") true) to_file
           sample_world eq_refl eq_refl).
Defined.

(** ** The sample run, end to end *)

(** The example of the specification: two identifiers, the second
    without title or date. *)
Example sample_fetch :
  fst (fetch_papers "cancer" sample_world) = Ok [record_111; record_222].
Proof. vm_compute. reflexivity. Qed.

Example sample_requests :
  requests (snd (fetch_papers "cancer" sample_world))
  = [ESearch "cancer"; ESummary (JStr "111"); ESummary (JStr "222")].
Proof. vm_compute. reflexivity. Qed.

Example sample_to_stdout :
  fst (run to_stdout sample_world) = 0%Z /\
  stdout (snd (run to_stdout sample_world)) = [Repr record_111; Repr record_222].
Proof. split; vm_compute; reflexivity. Qed.

Example sample_to_file :
  fst (run to_file sample_world) = 0%Z /\
  stdout (snd (run to_file sample_world)) = [Text "Results saved to out.csv"] /\
  files (snd (run to_file sample_world)) !! "out.csv"
  = Some [ map JStr headers; map (cell record_111) headers; map (cell record_222) headers ].
Proof.
  unfold run. rewrite main_run.
  replace (fetch_papers (query to_file) sample_world)
    with (Ok [record_111; record_222], snd (fetch_papers "cancer" sample_world))
    by (rewrite (surjective_pairing (fetch_papers (query to_file) sample_world));
        f_equal; symmetry; exact sample_fetch).
  cbn [file_given file to_file str_truthy].
  rewrite (save_to_csv_run [record_111; record_222] "out.csv"
             (snd (fetch_papers "cancer" sample_world)) sample_records);
    [|vm_compute; reflexivity|intros k row Hk; vm_compute; reflexivity].
  simpl. split; [reflexivity|]. split; [vm_compute; reflexivity|]. apply lookup_insert_eq.
Qed.

(** An empty [-f] argument counts as no filename: the records are printed. *)
Example empty_filename_prints :
  stdout (snd (run (mkNamespace "cancer" (Some "") false) sample_world))
  = [Repr record_111; Repr record_222].
Proof. vm_compute. reflexivity. Qed.

(** A file that cannot be written: [OSError] leaves [main], status 1,
    nothing printed. *)
Example readonly_run :
  fst (main to_file readonly_world) = Raise (OSError "out.csv") /\
  fst (run to_file readonly_world) = 1%Z /\
  stdout (snd (run to_file readonly_world)) = [].
Proof. repeat split; vm_compute; reflexivity. Qed.

(** A service that is down: the error is reported, status 0. *)
Example down_run :
  run to_file down_world
  = (0%Z, log_print (ErrorText (ConnectionError "Name or service not known"))
            (log_request (ESearch "cancer") down_world)).
Proof. reflexivity. Qed.

(** A malformed search document (a list, not an object): the
    [AttributeError] is not caught, status 1. *)
Example malformed_search_run :
  fst (run to_stdout (fresh (fun _ _ => ok_reply (JArr [])) (fun _ => true))) = 1%Z.
Proof. reflexivity. Qed.

(** A string is iterated character by character, a multi-byte
    character counting once. *)
Example characters_of_a_string :
  py_iter (JStr ("a" ++ e_acute ++ "b")) = Ok [JStr "a"; JStr e_acute; JStr "b"].
Proof. reflexivity. Qed.

(** A term that cannot be encoded: [requests.get] raises before anything
    is sent, the error is not of the requests family, status 1. *)
Example unsendable_run :
  run to_file unsendable_world = (1%Z, unsendable_world) /\
  fst (main to_file unsendable_world) = Raise UnicodeEncodeError.
Proof. split; reflexivity. Qed.

(** A body with an integer literal beyond the digit limit: a plain
    [ValueError], not caught, status 1. *)
Example overlong_integer_run :
  fst (main to_stdout overlong_world) = Raise ValueError /\
  fst (run to_stdout overlong_world) = 1%Z /\
  stdout (snd (run to_stdout overlong_world)) = [].
Proof. repeat split; reflexivity. Qed.

(** A record that cannot be encoded: the write raises, the error leaves
    [main], nothing is printed, and the file keeps the header and the
    rows written before. *)
Example unencodable_row_run :
  fst (main to_file unencodable_row_world) = Raise UnicodeEncodeError /\
  fst (run to_file unencodable_row_world) = 1%Z /\
  stdout (snd (run to_file unencodable_row_world)) = [] /\
  files (snd (run to_file unencodable_row_world)) !! "out.csv"
  = Some [ map JStr headers; map (cell record_111) headers ].
Proof. repeat split; vm_compute; reflexivity. Qed.

(** A device that refuses every write: [OSError] from the first write. *)
Example full_device_run :
  fst (main to_file full_device_world) = Raise (OSError "out.csv") /\
  fst (run to_file full_device_world) = 1%Z.
Proof. split; vm_compute; reflexivity. Qed.

(** * Further properties of the script *)

(** ** Helper lemmas *)

(** Anything that holds of every record a detail fetch builds holds of
    every record the loop appends. *)
Lemma fetch_loop_invariant (P : pydict -> Prop) :
  (forall rp id rec, detail rp id = Ok rec -> P rec) ->
  forall (ids : list json) (details : list pydict) (w : World)
         (ds : list pydict) (w' : World),
    fetch_loop ids details w = (Ok ds, w') ->
    Forall P details -> Forall P ds.
Proof.
  intros HP ids. induction ids as [|id rest IH]; intros details w ds w' Hrun Hd.
  - injection Hrun as <- <-. exact Hd.
  - rewrite fetch_loop_cons in Hrun.
    destruct (detail (reply_to w (ESummary id)) id) as [rec|e] eqn:Hrec; [|discriminate].
    apply (IH _ _ _ _ Hrun). apply Forall_app. split; [exact Hd|].
    constructor; [|constructor]. exact (HP _ _ _ Hrec).
Qed.

Lemma detail_key_sequence (rp : reply) (id : json) (rec : pydict) :
  detail rp id = Ok rec -> map fst rec = headers.
Proof.
  unfold detail, paper_record.
  destruct (decode rp) as [j|]; simpl; [|discriminate].
  destruct (summary_entry j id) as [data|]; simpl; [|discriminate].
  destruct (py_get data (JStr "title") (JStr "N/A")); simpl; [|discriminate].
  destruct (py_get data (JStr "pubdate") (JStr "N/A")); simpl; [|discriminate].
  intros [= <-]. reflexivity.
Qed.

Lemma fetch_papers_key_sequence (q : string) (w : World) (papers : list pydict) (w' : World) :
  fetch_papers q w = (Ok papers, w') -> Forall (fun d => map fst d = headers) papers.
Proof.
  rewrite fetch_papers_run.
  destruct (result_bind (decode (reply_to w (ESearch q)))
              (fun data => result_bind (search_ids data) py_iter)) as [items|e];
    [|discriminate].
  intros Hrun.
  apply (fetch_loop_invariant _ detail_key_sequence _ _ _ _ _ Hrun). constructor.
Qed.

(** For a dict whose keys are the six columns in order, the cells of its
    row are its values. *)
Lemma cells_are_values (d : pydict) :
  map fst d = headers -> map (cell d) headers = map snd d.
Proof.
  unfold headers. intros Hk.
  destruct d as [|[k1 v1] d]; [discriminate|].
  destruct d as [|[k2 v2] d]; [discriminate|].
  destruct d as [|[k3 v3] d]; [discriminate|].
  destruct d as [|[k4 v4] d]; [discriminate|].
  destruct d as [|[k5 v5] d]; [discriminate|].
  destruct d as [|[k6 v6] d]; [discriminate|].
  destruct d as [|[k7 v7] d]; [|discriminate].
  simpl in Hk. injection Hk as -> -> -> -> -> ->. reflexivity.
Qed.


(** Fetching leaves the write oracle of the world alone. *)
Lemma fetch_loop_device (ids : list json) :
  forall (details : list pydict) (w : World),
    write_error (snd (fetch_loop ids details w)) = write_error w.
Proof.
  induction ids as [|id ids IH]; intros details w.
  - reflexivity.
  - rewrite fetch_loop_cons.
    destruct (detail (reply_to w (ESummary id)) id) as [rec|e].
    + rewrite IH. reflexivity.
    + pose proof (after_request_frame (ESummary id) w). simpl. tauto.
Qed.

Lemma fetch_papers_device (q : string) (w : World) :
  write_error (snd (fetch_papers q w)) = write_error w.
Proof.
  rewrite fetch_papers_run.
  destruct (result_bind (decode (reply_to w (ESearch q)))
              (fun data => result_bind (search_ids data) py_iter)) as [items|e].
  - rewrite fetch_loop_device. reflexivity.
  - pose proof (after_request_frame (ESearch q) w). simpl. tauto.
Qed.

Lemma py_get_raises (o key dflt : json) (e : exn) :
  py_get o key dflt = Raise e -> e = AttributeError \/ e = TypeError.
Proof.
  unfold py_get, py_find. destruct o; simpl; try (intros [= <-]; tauto).
  destruct key; simpl; try discriminate; intros [= <-]; tauto.
Qed.

Lemma search_shape_raises (data : json) (e : exn) :
  result_bind (search_ids data) py_iter = Raise e -> e = AttributeError \/ e = TypeError.
Proof.
  unfold search_ids.
  destruct (py_get data (JStr "esearchresult") (JObj [])) as [r|e1] eqn:H1; simpl;
    [|intros [= <-]; exact (py_get_raises _ _ _ _ H1)].
  destruct (py_get r (JStr "idlist") (JArr [])) as [ids|e2] eqn:H2; simpl;
    [|intros [= <-]; exact (py_get_raises _ _ _ _ H2)].
  destruct ids; simpl; try discriminate; intros [= <-]; tauto.
Qed.

Lemma sample_fetch_run :
  fetch_papers "cancer" sample_world
  = (Ok [record_111; record_222], snd (fetch_papers "cancer" sample_world)).
Proof.
  rewrite (surjective_pairing (fetch_papers "cancer" sample_world)) at 1.
  f_equal; vm_compute; reflexivity.
Defined.

Lemma sample_fetch_readonly :
  fetch_papers "cancer" readonly_world
  = (Ok [record_111; record_222], snd (fetch_papers "cancer" readonly_world)).
Proof.
  rewrite (surjective_pairing (fetch_papers "cancer" readonly_world)) at 1.
  f_equal; vm_compute; reflexivity.
Defined.

Lemma dict_to_list_unknown_key (d : pydict) :
  ~ is_record d -> dict_to_list headers d = Raise ValueError.
Proof.
  intros Hbad. unfold dict_to_list.
  destruct (forallb (fun k => bool_decide (k ∈ headers)) (PyDict.keys d)) eqn:Hall;
    [|reflexivity].
  exfalso. apply Hbad. intros k Hin.
  rewrite forallb_forall in Hall.
  apply list_elem_of_In in Hin. apply Hall in Hin.
  apply bool_decide_eq_true in Hin. exact Hin.
Qed.

Lemma writerows_reject (f : string) (bad : pydict) (post : list pydict) (pre : list pydict) :
  forall (w : World) (rows0 : list csv_row),
    Forall is_record pre ->
    ~ is_record bad ->
    files w !! f = Some rows0 ->
    (forall k row, map (fun d => map (cell d) headers) pre !! k = Some row ->
       write_error w f (rows0 ++ take k (map (fun d => map (cell d) headers) pre)) row
       = None) ->
    writerows f headers (pre ++ bad :: post) w =
    (Raise ValueError,
     set_files (<[f := rows0 ++ map (fun d => map (cell d) headers) pre]> (files w)) w).
Proof.
  induction pre as [|d pre IH]; intros w rows0 Hpre Hbad Hf Hacc.
  - change ([] ++ bad :: post) with (bad :: post).
    cbn [writerows]. unfold bind at 1, lift. rewrite (dict_to_list_unknown_key bad Hbad).
    simpl. rewrite app_nil_r, insert_id by exact Hf. rewrite set_files_id. reflexivity.
  - apply Forall_cons in Hpre as [Hd Hpre].
    change ((d :: pre) ++ bad :: post) with (d :: (pre ++ bad :: post)).
    cbn [writerows]. unfold bind at 1, lift. rewrite (dict_to_list_record d Hd).
    unfold bind at 1. rewrite (writerow_run _ _ _ _ Hf).
    pose proof (Hacc 0 (map (cell d) headers) eq_refl) as H0.
    rewrite take_0, app_nil_r in H0. rewrite H0.
    rewrite (IH _ (rows0 ++ [map (cell d) headers]) Hpre Hbad).
    + unfold set_files. simpl. rewrite insert_insert_eq, <- app_assoc. reflexivity.
    + simpl. apply lookup_insert_eq.
    + intros k row Hk. rewrite <- app_assoc. exact (Hacc (S k) row Hk).
Qed.

Lemma rows_are_values (papers : list pydict) :
  Forall (fun d => map fst d = headers) papers ->
  map (fun d => map (cell d) headers) papers = map (fun d => map snd d) papers.
Proof.
  induction 1 as [|d ds Hd _ IH]; [reflexivity|].
  cbn [map]. rewrite (cells_are_values d Hd), IH. reflexivity.
Qed.

(** ** The Entry Point, on a successful fetch *)

(** X1.  When the fetch returns at least one record and no filename was
    given ([-f] absent, or given as the empty string), [main] prints
    every record exactly once, in the order of the collection, prints
    nothing else, touches no file, sends no further request, and the
    process exits with status 0. *)
Theorem records_printed_once_in_order
    (args : Namespace) (w : World) (papers : list pydict) (w1 : World) :
  fetch_papers (query args) w = (Ok papers, w1) ->
  papers <> [] ->
  file args = None \/ file args = Some "" ->
  exists w' : World,
    main args w = (Ok tt, w') /\
    stdout w' = stdout w ++ map Repr papers /\
    files w' = files w /\
    requests w' = requests w1 /\
    fst (run args w) = 0%Z.
Proof.
  intros Hfetch Hne Hfile.
  assert (Hnone : file_given (file args) = None) by (destruct Hfile as [-> | ->]; reflexivity).
  unfold run. rewrite main_run, Hfetch, Hnone.
  destruct papers as [|p ps]; [contradiction|].
  apply fetch_papers_frame in Hfetch as (Hout & Hfs & _).
  eexists. split; [reflexivity|]. simpl. rewrite Hout, Hfs. repeat split.
Qed.

Lemma records_printed_once_in_order_witness :
  exists w' : World,
    main (mkNamespace "cancer" (Some "") true) sample_world = (Ok tt, w') /\
    stdout w' = stdout sample_world ++ map Repr [record_111; record_222] /\
    files w' = files sample_world /\
    requests w' = requests (snd (fetch_papers "cancer" sample_world)) /\
    fst (run (mkNamespace "cancer" (Some "") true) sample_world) = 0%Z.
Proof.
  apply (records_printed_once_in_order (mkNamespace "cancer" (Some "") true) sample_world
           [record_111; record_222] (snd (fetch_papers "cancer" sample_world))).
  - exact sample_fetch_run.
  - discriminate.
  - right. reflexivity.
Defined.

(** X2.  When the fetch returns at least one record and a non-empty
    filename was given that can be opened for writing and takes every
    row, [main] leaves in that file the header row followed by one row
    per record holding the record's six values in order (no cell is a
    filler: the keys of every fetched record are the six columns, in
    column order), prints only the "Results saved to" line (no record
    reaches standard output), and the process exits with status 0. *)
Theorem results_saved_to_file
    (args : Namespace) (w : World) (papers : list pydict) (w1 : World) (filename : string) :
  fetch_papers (query args) w = (Ok papers, w1) ->
  papers <> [] ->
  file args = Some filename ->
  filename <> "" ->
  writable w filename = true ->
  rows_accepted w filename (map JStr headers :: map (fun d => map snd d) papers) ->
  exists w' : World,
    main args w = (Ok tt, w') /\
    stdout w' = stdout w ++ [Text ("Results saved to " ++ filename)] /\
    files w' !! filename = Some (map JStr headers :: map (fun d => map snd d) papers) /\
    (forall other : string, other <> filename -> files w' !! other = files w !! other) /\
    fst (run args w) = 0%Z.
Proof.
  intros Hfetch Hne Hfile Hname Hw Hacc.
  assert (Hgiven : file_given (file args) = Some filename).
  { rewrite Hfile. destruct filename; [contradiction|reflexivity]. }
  assert (Hrows : map (fun d => map (cell d) headers) papers = map (fun d => map snd d) papers)
    by exact (rows_are_values _ (fetch_papers_key_sequence _ _ _ _ Hfetch)).
  assert (Hsave : save_to_csv papers filename w1 =
                  (Ok tt, set_files (<[filename := map JStr headers
                                         :: map (fun d => map snd d) papers]> (files w1)) w1)).
  { rewrite <- Hrows. apply save_to_csv_run.
    - exact (fetch_papers_records _ _ _ _ Hfetch).
    - apply fetch_papers_frame in Hfetch as (_ & _ & ->). exact Hw.
    - rewrite Hrows. intros k row Hk.
      pose proof (fetch_papers_device (query args) w) as Hdev. rewrite Hfetch in Hdev.
      simpl in Hdev. rewrite Hdev. exact (Hacc k row Hk). }
  unfold run. rewrite main_run, Hfetch, Hgiven.
  destruct papers as [|p ps]; [contradiction|].
  rewrite Hsave.
  apply fetch_papers_frame in Hfetch as (Hout & Hfs & _).
  eexists. split; [reflexivity|]. simpl. rewrite Hout, Hfs.
  split; [reflexivity|]. split; [|split; [|reflexivity]].
  - apply lookup_insert_eq.
  - intros other Hother. apply lookup_insert_ne. congruence.
Qed.

Lemma results_saved_to_file_witness :
  exists w' : World,
    main to_file sample_world = (Ok tt, w') /\
    stdout w' = stdout sample_world ++ [Text ("Results saved to " ++ "out.csv")] /\
    files w' !! "out.csv"
      = Some (map JStr headers :: map (fun d => map snd d) [record_111; record_222]) /\
    (forall other : string,
       other <> "out.csv" -> files w' !! other = files sample_world !! other) /\
    fst (run to_file sample_world) = 0%Z.
Proof.
  apply (results_saved_to_file to_file sample_world [record_111; record_222]
           (snd (fetch_papers "cancer" sample_world)) "out.csv").
  - exact sample_fetch_run.
  - discriminate.
  - reflexivity.
  - discriminate.
  - reflexivity.
  - apply fresh_accepts.
Defined.

(** X3.  When the fetch returns at least one record but the file named
    by [-f] cannot be opened for writing, the [OSError] leaves [main]
    uncaught: nothing at all is printed (no record, no error message),
    the file system is unchanged, and the fetched records are lost. *)
Theorem unwritable_file_loses_the_results
    (args : Namespace) (w : World) (papers : list pydict) (w1 : World) (filename : string) :
  fetch_papers (query args) w = (Ok papers, w1) ->
  papers <> [] ->
  file args = Some filename ->
  filename <> "" ->
  writable w filename = false ->
  main args w = (Raise (OSError filename), w1) /\
  stdout w1 = stdout w /\
  files w1 = files w.
Proof.
  intros Hfetch Hne Hfile Hname Hw.
  assert (Hgiven : file_given (file args) = Some filename).
  { rewrite Hfile. destruct filename; [contradiction|reflexivity]. }
  rewrite main_run, Hfetch, Hgiven.
  destruct papers as [|p ps]; [contradiction|].
  apply fetch_papers_frame in Hfetch as (Hout & Hfs & Hperm).
  rewrite save_to_csv_unopenable by (rewrite Hperm; exact Hw).
  repeat split; assumption.
Qed.

Lemma unwritable_file_loses_the_results_witness :
  main to_file readonly_world
    = (Raise (OSError "out.csv"), snd (fetch_papers "cancer" readonly_world)) /\
  stdout (snd (fetch_papers "cancer" readonly_world)) = stdout readonly_world /\
  files (snd (fetch_papers "cancer" readonly_world)) = files readonly_world.
Proof.
  apply (unwritable_file_loses_the_results to_file readonly_world [record_111; record_222]
           (snd (fetch_papers "cancer" readonly_world)) "out.csv").
  - exact sample_fetch_readonly.
  - discriminate.
  - reflexivity.
  - discriminate.
  - reflexivity.
Defined.

(** ** What fetching does to the world *)


(** ** Search documents of an unexpected shape *)

(** X5.  A search document that lacks the 'esearchresult' key, or whose
    'esearchresult' object lacks the 'idlist' key, counts as an empty
    identifier list: [fetch_papers] returns an empty collection after the
    search request alone, and [main] reports that no papers were found. *)
Theorem missing_search_keys_mean_no_papers (args : Namespace) (w : World) (doc : pydict) :
  decode (reply_to w (ESearch (query args))) = Ok (JObj doc) ->
  PyDict.find doc "esearchresult" = None \/
  (exists r, PyDict.find doc "esearchresult" = Some (JObj r) /\ PyDict.find r "idlist" = None) ->
  fetch_papers (query args) w = (Ok [], log_request (ESearch (query args)) w) /\
  main args w = (Ok tt, log_print (Text "No papers found for the given query.")
                          (log_request (ESearch (query args)) w)).
Proof.
  intros Hdoc Hmissing.
  assert (Hfetch : fetch_papers (query args) w = (Ok [], log_request (ESearch (query args)) w)).
  { rewrite fetch_papers_run, Hdoc. unfold search_ids, py_get, py_find. cbn [result_bind].
    destruct Hmissing as [-> | (r & -> & Hr)]; simpl; [reflexivity|].
    rewrite Hr. reflexivity. }
  split; [exact Hfetch|]. rewrite main_run, Hfetch. reflexivity.
Qed.

Lemma missing_search_keys_mean_no_papers_witness :
  fetch_papers (query to_file) notice_world
    = (Ok [], log_request (ESearch (query to_file)) notice_world) /\
  main to_file notice_world
    = (Ok tt, log_print (Text "No papers found for the given query.")
                (log_request (ESearch (query to_file)) notice_world)).
Proof.
  apply (missing_search_keys_mean_no_papers to_file notice_world
           [ ("error", JStr "API rate limit exceeded") ]).
  - reflexivity.
  - left. reflexivity.
Defined.

(** X6.  A search document of the wrong shape (the document or its
    'esearchresult' is not an object, or 'idlist' is not iterable) makes
    the search step raise [AttributeError] or [TypeError].  [main] does
    not catch it: nothing is printed, no detail request is sent, no file
    is touched, and the process exits with status 1. *)
Theorem malformed_search_document_is_fatal
    (args : Namespace) (w : World) (data : json) (e : exn) :
  decode (reply_to w (ESearch (query args))) = Ok data ->
  result_bind (search_ids data) py_iter = Raise e ->
  (e = AttributeError \/ e = TypeError) /\
  main args w = (Raise e, log_request (ESearch (query args)) w) /\
  fst (run args w) = 1%Z.
Proof.
  intros Hdata Hshape.
  pose proof (search_shape_raises _ _ Hshape) as He.
  split; [exact He|].
  assert (Hfetch : fetch_papers (query args) w
                   = (Raise e, log_request (ESearch (query args)) w)).
  { rewrite fetch_papers_run, Hdata. cbn [result_bind]. rewrite Hshape.
    rewrite (after_request_ok _ _ _ Hdata). reflexivity. }
  unfold run. rewrite main_run, Hfetch.
  destruct He as [-> | ->]; split; reflexivity.
Qed.

Lemma malformed_search_document_is_fatal_witness :
  (TypeError = AttributeError \/ TypeError = TypeError) /\
  main to_file null_idlist_world
    = (Raise TypeError, log_request (ESearch (query to_file)) null_idlist_world) /\
  fst (run to_file null_idlist_world) = 1%Z.
Proof.
  apply (malformed_search_document_is_fatal to_file null_idlist_world
           (JObj [ ("esearchresult", JObj [ ("idlist", JNull) ]) ]) TypeError).
  - reflexivity.
  - reflexivity.
Defined.

(** ** The Output Writer, beyond a single good write *)

(** X7.  [save_to_csv] replaces the file: after writing one list of
    records and then another to the same filename (which opens, and
    takes the rows of either list), the file system is exactly what
    writing the second list alone gives; nothing of the first write (or
    of any earlier content) remains. *)
Theorem save_to_csv_replaces_the_file
    (old new : list pydict) (filename : string) (w : World) :
  Forall is_record old ->
  Forall is_record new ->
  writable w filename = true ->
  rows_accepted w filename (map JStr headers :: map (fun d => map (cell d) headers) old) ->
  rows_accepted w filename (map JStr headers :: map (fun d => map (cell d) headers) new) ->
  exists w1 w2 : World,
    save_to_csv old filename w = (Ok tt, w1) /\
    save_to_csv new filename w1 = (Ok tt, w2) /\
    files w2 = files (snd (save_to_csv new filename w)) /\
    files w2 !! filename
      = Some (map JStr headers :: map (fun d => map (cell d) headers) new).
Proof.
  intros Hold Hnew Hw Haold Hanew.
  rewrite (save_to_csv_run _ _ _ Hold Hw Haold).
  eexists. eexists. split; [reflexivity|].
  rewrite (save_to_csv_run new filename w Hnew Hw Hanew).
  rewrite (save_to_csv_run new filename _ Hnew); [|exact Hw|exact Hanew].
  split; [reflexivity|]. simpl. rewrite insert_insert_eq.
  split; [reflexivity|]. apply lookup_insert_eq.
Qed.

Lemma save_to_csv_replaces_the_file_witness :
  exists w1 w2 : World,
    save_to_csv [record_111; record_222] "out.csv" sample_world = (Ok tt, w1) /\
    save_to_csv [record_333] "out.csv" w1 = (Ok tt, w2) /\
    files w2 = files (snd (save_to_csv [record_333] "out.csv" sample_world)) /\
    files w2 !! "out.csv"
      = Some (map JStr headers :: map (fun d => map (cell d) headers) [record_333]).
Proof.
  apply (save_to_csv_replaces_the_file [record_111; record_222] [record_333] "out.csv"
           sample_world).
  - exact sample_records.
  - constructor; [apply keys_headers_is_record; reflexivity|constructor].
  - reflexivity.
  - apply fresh_accepts.
  - apply fresh_accepts.
Defined.

(** X8.  A row dictionary with a key outside the six columns makes
    [save_to_csv] raise [ValueError] when it is reached, that is when
    the file opens and takes the header and the rows of the records
    before it.  The rows are written one by one, so the file then holds
    the header and the rows of those earlier records, and none after. *)
Theorem save_to_csv_rejects_unknown_column
    (pre : list pydict) (bad : pydict) (post : list pydict) (filename : string) (w : World) :
  Forall is_record pre ->
  ~ is_record bad ->
  writable w filename = true ->
  rows_accepted w filename (map JStr headers :: map (fun d => map (cell d) headers) pre) ->
  exists w' : World,
    save_to_csv (pre ++ bad :: post) filename w = (Raise ValueError, w') /\
    files w' !! filename
      = Some (map JStr headers :: map (fun d => map (cell d) headers) pre) /\
    stdout w' = stdout w.
Proof.
  intros Hpre Hbad Hw Hacc.
  unfold save_to_csv, open_w, writeheader.
  unfold bind at 1. rewrite Hw.
  unfold bind at 1.
  rewrite (writerow_run _ _ _ [] (lookup_insert_eq _ _ _)). cbn [write_error set_files].
  pose proof (Hacc 0 _ eq_refl) as H0. rewrite take_0 in H0. rewrite H0.
  rewrite (writerows_reject _ _ _ _ _ ([] ++ [map JStr headers]) Hpre Hbad).
  - eexists. split; [reflexivity|]. simpl. split; [|reflexivity].
    apply lookup_insert_eq.
  - simpl. rewrite insert_insert_eq. apply lookup_insert_eq.
  - intros k row Hk. exact (Hacc (S k) row Hk).
Qed.

Lemma annotated_record_unknown_column : ~ is_record annotated_record.
Proof.
  intros Hrec.
  assert (Hin : "Notes" ∈ headers).
  { apply Hrec. simpl. do 2 apply list_elem_of_further. apply list_elem_of_here. }
  unfold headers in Hin.
  repeat (apply elem_of_cons in Hin as [Heq | Hin]; [discriminate|]).
  apply elem_of_nil in Hin. exact Hin.
Defined.

Lemma save_to_csv_rejects_unknown_column_witness :
  exists w' : World,
    save_to_csv ([record_111] ++ annotated_record :: [record_222]) "out.csv" sample_world
      = (Raise ValueError, w') /\
    files w' !! "out.csv"
      = Some (map JStr headers :: map (fun d => map (cell d) headers) [record_111]) /\
    stdout w' = stdout sample_world.
Proof.
  apply (save_to_csv_rejects_unknown_column [record_111] annotated_record [record_222]
           "out.csv" sample_world).
  - constructor; [apply keys_headers_is_record; reflexivity|constructor].
  - exact annotated_record_unknown_column.
  - reflexivity.
  - apply fresh_accepts.
Defined.

(** ** Summary documents of an unexpected shape *)

Lemma entry_shape_raises (j id : json) (e : exn) :
  result_bind (summary_entry j id) (paper_record id) = Raise e ->
  e = AttributeError \/ e = TypeError.
Proof.
  unfold summary_entry, paper_record.
  destruct (py_get j (JStr "result") (JObj [])) as [r|e1] eqn:H1; simpl;
    [|intros [= <-]; exact (py_get_raises _ _ _ _ H1)].
  destruct (py_get r id (JObj [])) as [data|e2] eqn:H2; simpl;
    [|intros [= <-]; exact (py_get_raises _ _ _ _ H2)].
  destruct (py_get data (JStr "title") (JStr "N/A")) as [t|e3] eqn:H3; simpl;
    [|intros [= <-]; exact (py_get_raises _ _ _ _ H3)].
  destruct (py_get data (JStr "pubdate") (JStr "N/A")) as [p|e4] eqn:H4; simpl;
    [discriminate|intros [= <-]; exact (py_get_raises _ _ _ _ H4)].
Qed.

(** X10.  A summary document of the wrong shape (the document, its
    'result' or the entry of the identifier is not an object, or the
    identifier is unhashable) makes that detail step raise
    [AttributeError] or [TypeError], after any number of successful
    steps.  [main] does not catch it: the records fetched so far are
    lost, nothing is printed, no file is touched, and the process exits
    with status 1. *)
Theorem malformed_detail_document_is_fatal
    (args : Namespace) (w : World) (data : json) (pre : list json) (id : json)
    (post : list json) (j : json) (e : exn) :
  decode (reply_to w (ESearch (query args))) = Ok data ->
  result_bind (search_ids data) py_iter = Ok (pre ++ id :: post) ->
  details_answered w pre ->
  decode (net w (S (length (requests w)) + length pre) (ESummary id)) = Ok j ->
  result_bind (summary_entry j id) (paper_record id) = Raise e ->
  (e = AttributeError \/ e = TypeError) /\
  exists w' : World,
    main args w = (Raise e, w') /\
    stdout w' = stdout w /\
    files w' = files w /\
    fst (run args w) = 1%Z.
Proof.
  intros Hdata Hitems Hpre Hj Hshape.
  pose proof (entry_shape_raises _ _ _ Hshape) as He.
  split; [exact He|].
  destruct (fetch_loop_abort pre id post [] (log_request (ESearch (query args)) w) e)
    as (w' & Hrun & _ & Hout & Hfs).
  { apply details_answered_shift. exact Hpre. }
  { unfold detail. simpl. rewrite length_app. simpl.
    replace (length (requests w) + 1 + length pre) with (S (length (requests w)) + length pre)
      by lia.
    rewrite Hj. exact Hshape. }
  assert (Hfetch : fetch_papers (query args) w = (Raise e, w')).
  { rewrite fetch_papers_run, Hdata. cbn [result_bind]. rewrite Hitems. exact Hrun. }
  exists w'. unfold run. rewrite main_run, Hfetch.
  simpl in Hout, Hfs.
  destruct He as [-> | ->]; repeat split; assumption.
Qed.

Lemma odd_summary_details_answered : details_answered odd_summary_world [JStr "111"].
Proof.
  intros [|k] id Hk; simpl in Hk.
  - injection Hk as <-. eexists. vm_compute. reflexivity.
  - discriminate.
Defined.

Lemma malformed_detail_document_is_fatal_witness :
  (AttributeError = AttributeError \/ AttributeError = TypeError) /\
  exists w' : World,
    main to_file odd_summary_world = (Raise AttributeError, w') /\
    stdout w' = stdout odd_summary_world /\
    files w' = files odd_summary_world /\
    fst (run to_file odd_summary_world) = 1%Z.
Proof.
  apply (malformed_detail_document_is_fatal to_file odd_summary_world search_doc
           [JStr "111"] (JStr "222") [] (JObj [ ("result", JArr []) ]) AttributeError).
  - reflexivity.
  - reflexivity.
  - exact odd_summary_details_answered.
  - reflexivity.
  - reflexivity.
Defined.
